(** * WearableTurnSignal: a shallow embedding of the sketch and its properties

    The sketch [WearableTurnSignal.ino] is a single-threaded polling loop over
    the Arduino digital I/O port.  It is embedded here as a state-passing
    program over a [World] made of a clock, the output latches of the port and
    the log of every port access; the two button lines are an external signal
    [line] of the clock.  The unbounded [while] loops take fuel. *)

From stdpp Require Import base numbers option list gmap.

Open Scope N_scope.

(** ** The digital I/O port *)

(** [HIGH] and [LOW] of [Arduino.h]. *)
Inductive level : Set := LOW | HIGH.

#[global] Instance level_eq_dec : EqDecision level.
Proof. solve_decision. Defined.

(** One access to the port, or one pause, as the sketch performs them. *)
Inductive event : Set :=
  | EvWrite (pin : N) (v : level)        (* digitalWrite(pin, v) *)
  | EvRead (pin : N) (v : level)         (* digitalRead(pin), which saw v *)
  | EvDelay (ms : N)                     (* delay(ms) *)
  | EvDelayMicroseconds (us : N).        (* delayMicroseconds(us) *)

#[global] Instance event_eq_dec : EqDecision event.
Proof. solve_decision. Defined.

(** [clock] counts microseconds since boot, [port] holds the level last
    written to each output pin, [log] the accesses so far, oldest first. *)
Record World : Type := mkWorld {
  clock : N;
  port : gmap N level;
  log : list event
}.

(** The effect of one event on the world.  Port accesses take no time of
    their own; only the two pauses advance the clock. *)
Definition apply_event (e : event) (w : World) : World :=
  match e with
  | EvWrite p v => mkWorld (clock w) (<[p:=v]> (port w)) (log w ++ [e])
  | EvRead _ _ => mkWorld (clock w) (port w) (log w ++ [e])
  | EvDelay ms => mkWorld (clock w + 1000 * ms) (port w) (log w ++ [e])
  | EvDelayMicroseconds us => mkWorld (clock w + us) (port w) (log w ++ [e])
  end.

(** Replaying a trace of events on a world. *)
Definition play (tr : list event) (w : World) : World :=
  fold_left (fun w e => apply_event e w) tr w.

(** Time taken by a trace, in microseconds. *)
Definition elapsed (tr : list event) : N :=
  fold_right (fun e acc =>
                match e with
                | EvDelay ms => 1000 * ms + acc
                | EvDelayMicroseconds us => us + acc
                | _ => acc
                end) 0 tr.

(** The level an output pin drives: [LOW] until first written. *)
Definition pin_level (p : gmap N level) (pin : N) : level :=
  default LOW (p !! pin).

(** The port latches after a trace: only writes change them. *)
Definition replay (tr : list event) (p : gmap N level) : gmap N level :=
  fold_left (fun p e => match e with EvWrite pin v => <[pin:=v]> p | _ => p end) tr p.

Definition is_write (e : event) : bool :=
  match e with EvWrite _ _ => true | _ => false end.

(** ** Programs *)

(** A run either returns a value or exhausts its fuel; both leave the world
    reached so far. *)
Inductive res (A : Type) : Type :=
  | Done (a : A) (w : World)
  | OutOfFuel (w : World).
Arguments Done {A} a w.
Arguments OutOfFuel {A} w.

Definition M (A : Type) : Type := World → res A.

Definition world_of {A} (r : res A) : World :=
  match r with Done _ w => w | OutOfFuel w => w end.

Definition returned {A} (r : res A) : option A :=
  match r with Done a _ => Some a | OutOfFuel _ => None end.

#[global] Instance M_ret : MRet M := fun A a w => Done a w.
#[global] Instance M_bind : MBind M := fun A B f m w =>
  match m w with
  | Done a w' => f a w'
  | OutOfFuel w' => OutOfFuel w'
  end.

(** [while (cond) body] over the local variables [s]. *)
Fixpoint while_ {S : Type} (fuel : nat) (cond : S → M bool) (body : S → M S)
    (s : S) : M S :=
  match fuel with
  | O => fun w => OutOfFuel w
  | Datatypes.S fuel' =>
      c ← cond s;
      if c : bool then s' ← body s; while_ fuel' cond body s' else mret s
  end.

(** [for (int i = lo; i < lo + n && cond; i++) body], a counted loop. *)
Fixpoint for_ {S : Type} (n : nat) (i : nat) (cond : S → bool)
    (body : nat → S → M S) (s : S) : M S :=
  match n with
  | O => mret s
  | Datatypes.S n' =>
      if cond s then s' ← body i s; for_ n' (Datatypes.S i) cond body s'
      else mret s
  end.

(** [unsigned long] arithmetic of the AVR targets: 32 bits, wrapping. *)
Definition ulong_max : N := 2 ^ 32.
Definition ulong_sub (a b : N) : N := (a + ulong_max - b mod ulong_max) mod ulong_max.

(** ** The sketch *)

(** enum blinkerstate : byte *)
Inductive blinkerstate : Set := off | left | right | hazards.

#[global] Instance blinkerstate_eq_dec : EqDecision blinkerstate.
Proof. solve_decision. Defined.

Definition leftButtonPin : N := 13.
Definition rightButtonPin : N := 8.
Definition num_signal_lights : nat := 4.
Definition leftSignalPins : list N := [9; 10; 11; 12].
Definition rightSignalPins : list N := [3; 4; 5; 6].
Definition interval : N := 500.

Section Sketch.

(** The pin number behind [A0] comes from the board's [pins_arduino.h], which
    the sketch only includes; it stays a parameter. *)
Variable A0 : N.

(** The level of each input line at each instant (microseconds since boot). *)
Variable line : N → N → level.

Definition buzzerPin : N := A0.

(** *** The Arduino calls the sketch uses *)

Definition digitalWrite (pin : N) (v : level) : M unit :=
  fun w => Done tt (apply_event (EvWrite pin v) w).

Definition digitalRead (pin : N) : M level :=
  fun w => let v := line (clock w) pin in Done v (apply_event (EvRead pin v) w).

Definition delay (ms : N) : M unit :=
  fun w => Done tt (apply_event (EvDelay ms) w).

Definition delayMicroseconds (us : N) : M unit :=
  fun w => Done tt (apply_event (EvDelayMicroseconds us) w).

Definition millis : M N :=
  fun w => Done ((clock w / 1000) mod ulong_max) w.

(** *** readButtonStates *)

Definition readButtonStates : M blinkerstate :=
  l ← digitalRead leftButtonPin;
  state ← (if decide (l = HIGH) then
              r ← digitalRead rightButtonPin;
              if decide (r = HIGH) then mret hazards else mret left
            else
              r ← digitalRead rightButtonPin;
              if decide (r = HIGH) then mret right else mret off);
  delay 1;;
  mret state.

(** *** buzzerClick *)

Definition buzzerClick : M unit :=
  for_ 8 0 (fun _ => true)
    (fun _ _ =>
       digitalWrite buzzerPin HIGH;;
       delayMicroseconds 128;;
       digitalWrite buzzerPin LOW;;
       delayMicroseconds 128) tt.

(** *** disableSignals *)

Definition disableSignals : M unit :=
  for_ num_signal_lights 0 (fun _ => true)
    (fun i _ =>
       digitalWrite (nth i leftSignalPins 0) LOW;;
       digitalWrite (nth i rightSignalPins 0) LOW) tt.

(** *** leftTurnSignal *)

Definition leftTurnSignal (fuel : nat) : M unit :=
  while_ fuel (fun left_turn => mret left_turn)
    (fun left_turn =>
       disableSignals;;
       for_ num_signal_lights 0 (fun left_turn => left_turn)
         (fun i left_turn =>
            digitalWrite (nth i leftSignalPins 0) HIGH;;
            buzzerClick;;
            start_time ← millis;
            while_ fuel
              (fun left_turn =>
                 now ← millis;
                 mret (bool_decide (ulong_sub now start_time < interval) && left_turn))
              (fun _ =>
                 s ← readButtonStates;
                 mret (if decide (s = left) then true else false))
              left_turn)
         left_turn)
    true;;
  mret tt.

(** *** rightTurnSignal *)

Definition rightTurnSignal (fuel : nat) : M unit :=
  while_ fuel (fun right_turn => mret right_turn)
    (fun right_turn =>
       disableSignals;;
       for_ num_signal_lights 0 (fun right_turn => right_turn)
         (fun i right_turn =>
            digitalWrite (nth i rightSignalPins 0) HIGH;;
            buzzerClick;;
            start_time ← millis;
            while_ fuel
              (fun right_turn =>
                 now ← millis;
                 mret (bool_decide (ulong_sub now start_time < interval) && right_turn))
              (fun _ =>
                 s ← readButtonStates;
                 mret (if decide (s = right) then true else false))
              right_turn)
         right_turn)
    true;;
  mret tt.

(** *** engageHazardLights *)

Definition engageHazardLights (fuel : nat) : M unit :=
  while_ fuel (fun hazard_lights => mret hazard_lights)
    (fun hazard_lights =>
       disableSignals;;
       buzzerClick;;
       start_time ← millis;
       hazard_lights ←
         while_ fuel
           (fun hazard_lights =>
              now ← millis;
              mret (bool_decide (ulong_sub now start_time < interval) && hazard_lights))
           (fun _ =>
              s ← readButtonStates;
              mret (if decide (s = hazards) then true else false))
           hazard_lights;
       for_ num_signal_lights 0 (fun _ => true)
         (fun i _ =>
            digitalWrite (nth i leftSignalPins 0) HIGH;;
            digitalWrite (nth i rightSignalPins 0) HIGH) tt;;
       buzzerClick;;
       start_time ← millis;
       while_ fuel
         (fun hazard_lights =>
            now ← millis;
            mret (bool_decide (ulong_sub now start_time < interval) && hazard_lights))
         (fun _ =>
            s ← readButtonStates;
            mret (if decide (s = hazards) then true else false))
         hazard_lights)
    true;;
  mret tt.

(** *** loop *)

Definition loop (fuel : nat) : M unit :=
  selection ← readButtonStates;
  if decide (selection = left) then leftTurnSignal fuel
  else if decide (selection = right) then rightTurnSignal fuel
  else if decide (selection = hazards) then engageHazardLights fuel
  else disableSignals.

(** *** The loops of the animators, piece by piece *)

(** The wait loop the three animators share, up to the mode they watch for:
    [while (millis() - start_time < interval && flag)
       readButtonStates() == own ? flag = true : flag = false;] *)
Definition wait_ (own : blinkerstate) (fuel : nat) (start_time : N) : bool → M bool :=
  while_ fuel
    (fun flag =>
       now ← millis;
       mret (bool_decide (ulong_sub now start_time < interval) && flag))
    (fun _ =>
       s ← readButtonStates;
       mret (if decide (s = own) then true else false)).

(** The body of the [for] loop of [leftTurnSignal] and [rightTurnSignal]. *)
Definition chase_step (own : blinkerstate) (pins : list N) (fuel : nat)
    (i : nat) (flag : bool) : M bool :=
  digitalWrite (nth i pins 0) HIGH;;
  buzzerClick;;
  start_time ← millis;
  wait_ own fuel start_time flag.

(** The body of their outer [while] loop. *)
Definition chase_cycle (own : blinkerstate) (pins : list N) (fuel : nat)
    (flag : bool) : M bool :=
  disableSignals;;
  for_ num_signal_lights 0 (fun flag => flag) (chase_step own pins fuel) flag.

Definition chase (own : blinkerstate) (pins : list N) (fuel : nat) : M unit :=
  while_ fuel (fun flag => mret flag) (chase_cycle own pins fuel) true;;
  mret tt.

(** The body of the outer loop of [engageHazardLights]. *)
Definition hazard_cycle (fuel : nat) (hazard_lights : bool) : M bool :=
  disableSignals;;
  buzzerClick;;
  start_time ← millis;
  hazard_lights ← wait_ hazards fuel start_time hazard_lights;
  for_ num_signal_lights 0 (fun _ => true)
    (fun i _ =>
       digitalWrite (nth i leftSignalPins 0) HIGH;;
       digitalWrite (nth i rightSignalPins 0) HIGH) tt;;
  buzzerClick;;
  start_time ← millis;
  wait_ hazards fuel start_time hazard_lights.

End Sketch.

(** ** Traces *)

(** The mode two button readings stand for, as [readButtonStates] nests its
    tests. *)
Definition mode_of (l r : level) : blinkerstate :=
  match l, r with
  | HIGH, HIGH => hazards
  | HIGH, LOW => left
  | LOW, HIGH => right
  | LOW, LOW => off
  end.

(** The readings that stand for a mode. *)
Definition left_level (m : blinkerstate) : level :=
  match m with left | hazards => HIGH | _ => LOW end.
Definition right_level (m : blinkerstate) : level :=
  match m with right | hazards => HIGH | _ => LOW end.

(** What one call of each leaf function adds to the log. *)
Definition sample_events (l r : level) : list event :=
  [EvRead leftButtonPin l; EvRead rightButtonPin r; EvDelay 1].

Definition click_events (A0 : N) : list event :=
  concat (repeat [EvWrite A0 HIGH; EvDelayMicroseconds 128;
                  EvWrite A0 LOW; EvDelayMicroseconds 128] 8).

Definition bank_events (v : level) : list event :=
  concat (map (fun i => [EvWrite (nth i leftSignalPins 0) v;
                         EvWrite (nth i rightSignalPins 0) v])
              (seq 0 num_signal_lights)).

(** A full wait: [interval] samples of the mode, one per millisecond. *)
Definition wait_events (own : blinkerstate) : list event :=
  concat (repeat (sample_events (left_level own) (right_level own))
                 (N.to_nat interval)).

(** One step of a chase: light the slot, click, wait. *)
Definition step_events (A0 : N) (own : blinkerstate) (pin : N) : list event :=
  EvWrite pin HIGH :: click_events A0 ++ wait_events own.

(** One cycle of a chase: blank both banks, then one step per slot. *)
Definition chase_events (A0 : N) (own : blinkerstate) (pins : list N) : list event :=
  bank_events LOW ++
  concat (map (fun i => step_events A0 own (nth i pins 0)) (seq 0 num_signal_lights)).

(** A cycle of a chase up to the end of its first [k] steps. *)
Definition chase_prefix (A0 : N) (own : blinkerstate) (pins : list N) (k : nat) : list event :=
  bank_events LOW ++
  concat (map (fun i => step_events A0 own (nth i pins 0)) (seq 0 k)).

(** One cycle of the hazard lights. *)
Definition hazard_events (A0 : N) : list event :=
  bank_events LOW ++ click_events A0 ++ wait_events hazards ++
  bank_events HIGH ++ click_events A0 ++ wait_events hazards.

(** ** Properties of traces and of the buttons *)

(** A trace is calm for a mode when every sample in it reads that mode. *)
Inductive calm (own : blinkerstate) : list event → Prop :=
  | calm_nil : calm own []
  | calm_write p v tr : calm own tr → calm own (EvWrite p v :: tr)
  | calm_pause us tr : calm own tr → calm own (EvDelayMicroseconds us :: tr)
  | calm_sample l r tr :
      mode_of l r = own → calm own tr → calm own (sample_events l r ++ tr).

(** The traces of an animator: calm, then possibly one sample of another
    mode, and nothing after it. *)
Definition shaped (own : blinkerstate) (cancelled : bool) (tr : list event) : Prop :=
  ∃ c, calm own c ∧
       if cancelled
       then ∃ l r, mode_of l r ≠ own ∧ tr = c ++ sample_events l r
       else tr = c.

(** A run of a loop that started with its flag set. *)
Definition flag_run (own : blinkerstate) (r : res bool) (w : World) : Prop :=
  ∃ tr cancelled,
    world_of r = play tr w ∧ shaped own cancelled tr ∧
    match returned r with Some flag => cancelled = negb flag | None => True end.

(** The buttons read as mode [own] at every instant from [t0] up to [t1]. *)
Definition held_during (line : N → N → level) (own : blinkerstate) (t0 t1 : N) : Prop :=
  ∀ t, t0 ≤ t < t1 →
       line t leftButtonPin = left_level own ∧
       line t rightButtonPin = right_level own.

(** The buttons read as mode [own] from [t0] on. *)
Definition held_from (line : N → N → level) (own : blinkerstate) (t0 : N) : Prop :=
  ∀ t, t0 ≤ t →
       line t leftButtonPin = left_level own ∧
       line t rightButtonPin = right_level own.

(** How many outputs of a bank are lit. *)
Definition lit_count (pins : list N) (p : gmap N level) : nat :=
  length (filter (fun pin => pin_level p pin = HIGH) pins).

(** At most one output of the bank is lit at every point of a trace run from
    world [w]. *)
Definition one_at_a_time (pins : list N) (w : World) (tr : list event) : Prop :=
  ∀ k : nat, (lit_count pins (port (play (take k tr) w)) ≤ 1)%nat.

(** ** Concrete boards and button behaviours *)

(** The world at boot. *)
Definition boot : World := mkWorld 0 ∅ [].

(** On the ATmega328 boards (Uno, Pro Trinket) [A0] is digital pin 14. *)
Definition A0_atmega328 : N := 14.

(** Buttons that read as mode [m] for ever. *)
Definition steady (m : blinkerstate) : N → N → level :=
  fun _ pin =>
    if decide (pin = leftButtonPin) then left_level m
    else if decide (pin = rightButtonPin) then right_level m
    else LOW.

(** Buttons that read as mode [m] until they are both released at [t1]. *)
Definition released_at (t1 : N) (m : blinkerstate) : N → N → level :=
  fun t pin => if decide (t < t1) then steady m t pin else LOW.

(** ** The boot-time configuration of the pins *)

(** [INPUT] and [OUTPUT] of [Arduino.h]. *)
Inductive pin_mode : Set := INPUT | OUTPUT.

#[global] Instance pin_mode_eq_dec : EqDecision pin_mode.
Proof. solve_decision. Defined.

(** [pinMode(pin, mode)] on the direction register of the port. *)
Definition pinMode (pin : N) (mode : pin_mode) (d : gmap N pin_mode) : gmap N pin_mode :=
  <[pin:=mode]> d.

(** [setup], as a transformer of the direction register: the two buttons,
    the buzzer, then for [i] from 0 to 3 the two signal pins of slot [i]. *)
Definition setup (A0 : N) (d : gmap N pin_mode) : gmap N pin_mode :=
  let d := pinMode leftButtonPin INPUT d in
  let d := pinMode rightButtonPin INPUT d in
  let d := pinMode A0 OUTPUT d in
  fold_left (fun d i =>
               let d := pinMode (nth i leftSignalPins 0) OUTPUT d in
               pinMode (nth i rightSignalPins 0) OUTPUT d)
            (seq 0 num_signal_lights) d.

(** ** What a run may add to the log *)

(** Every event a run of [m] adds to the log satisfies [P]. *)
Definition emits {A} (P : event → Prop) (m : M A) : Prop :=
  ∀ w, ∃ tr, world_of (m w) = play tr w ∧ Forall P tr.

(** The port accesses and pauses of the sketch: writes to the buzzer and to
    the signal pins, reads of the two buttons, pauses of 1 ms and 128 us. *)
Definition sketch_event (A0 : N) (e : event) : Prop :=
  match e with
  | EvWrite pin _ => pin = A0 ∨ pin ∈ leftSignalPins ++ rightSignalPins
  | EvRead pin _ => pin = leftButtonPin ∨ pin = rightButtonPin
  | EvDelay ms => ms = 1
  | EvDelayMicroseconds us => us = 128
  end.

(** An event that drives no pin high but the buzzer and those of [pins]. *)
Definition lights_only (A0 : N) (pins : list N) (e : event) : Prop :=
  match e with
  | EvWrite pin HIGH => pin = A0 ∨ pin ∈ pins
  | _ => True
  end.

(** An access the direction register [d] allows: a write to a pin that is
    an output, a read of a pin that is an input. *)
Definition configured (d : gmap N pin_mode) (e : event) : Prop :=
  match e with
  | EvWrite pin _ => d !! pin = Some OUTPUT
  | EvRead pin _ => d !! pin = Some INPUT
  | _ => True
  end.

(** The traces of the hazard lights: calm, then possibly one sample of
    another mode, itself followed by nothing or by one lights-on pass and
    one click. *)
Definition hazard_shaped (A0 : N) (cancelled : bool) (tr : list event) : Prop :=
  ∃ c, calm hazards c ∧
       if cancelled
       then ∃ l r, mode_of l r ≠ hazards ∧
                   (tr = c ++ sample_events l r ∨
                    tr = c ++ sample_events l r ++ bank_events HIGH ++ click_events A0)
       else tr = c.

(** A run of a loop of the hazard lights that started with its flag set. *)
Definition hazard_run (A0 : N) (r : res bool) (w : World) : Prop :=
  ∃ tr cancelled,
    world_of r = play tr w ∧ hazard_shaped A0 cancelled tr ∧
    match returned r with Some flag => cancelled = negb flag | None => True end.

(** The latches after the chase steps of slots [i] to [i + n - 1]. *)
Definition lit_steps (A0 : N) (pins : list N) (i n : nat) (p : gmap N level) : gmap N level :=
  fold_left (fun p j => <[A0:=LOW]> (<[nth j pins 0:=HIGH]> p)) (seq i n) p.

(** ** Running programs *)

Lemma bind_run {A B} (m : M A) (f : A → M B) w :
  (m ≫= f) w =
    match m w with Done a w' => f a w' | OutOfFuel w' => OutOfFuel w' end.
Proof. reflexivity. Qed.

Lemma while_flag_true n (body : bool → M bool) w :
  while_ (S n) (fun flag => mret flag) body true w =
    match body true w with
    | Done flag w' => while_ n (fun flag => mret flag) body flag w'
    | OutOfFuel w' => OutOfFuel w'
    end.
Proof. reflexivity. Qed.

(** ** Replaying traces *)

Lemma play_cons e tr w : play (e :: tr) w = play tr (apply_event e w).
Proof. reflexivity. Qed.

Lemma play_app tr1 tr2 w : play (tr1 ++ tr2) w = play tr2 (play tr1 w).
Proof. unfold play. apply fold_left_app. Qed.

Lemma log_play tr w : log (play tr w) = log w ++ tr.
Proof.
  revert w. induction tr as [|e tr IH]; intros w.
  - simpl. by rewrite app_nil_r.
  - rewrite play_cons, IH. destruct e; simpl; by rewrite <- app_assoc.
Qed.

Lemma clock_play tr w : clock (play tr w) = clock w + elapsed tr.
Proof.
  revert w. induction tr as [|e tr IH]; intros w.
  - simpl. lia.
  - rewrite play_cons, IH. destruct e; simpl; lia.
Qed.

Lemma port_play tr w : port (play tr w) = replay tr (port w).
Proof.
  revert w. induction tr as [|e tr IH]; intros w; [done|].
  rewrite play_cons, IH. by destruct e.
Qed.

Lemma replay_app tr1 tr2 p : replay (tr1 ++ tr2) p = replay tr2 (replay tr1 p).
Proof. unfold replay. apply fold_left_app. Qed.

Lemma replay_no_write tr p : forallb (fun e => negb (is_write e)) tr = true → replay tr p = p.
Proof.
  revert p. induction tr as [|e tr IH]; intros p H; [done|].
  simpl in H. apply andb_true_iff in H as [He Htr].
  destruct e; try discriminate; simpl; by apply IH.
Qed.

Lemma replay_click A0 p : replay (click_events A0) p = <[A0:=LOW]> p.
Proof.
  unfold click_events, replay. cbn [repeat concat app fold_left].
  by rewrite !insert_insert_eq.
Qed.

Lemma lookup_replay_bank v p pin :
  replay (bank_events v) p !! pin =
    if bool_decide (pin ∈ leftSignalPins ++ rightSignalPins) then Some v else p !! pin.
Proof.
  unfold bank_events, replay.
  cbn [num_signal_lights seq map concat app fold_left nth leftSignalPins rightSignalPins].
  unfold rightSignalPins.
  repeat (rewrite lookup_insert; case_decide;
          [subst pin; rewrite bool_decide_eq_true_2;
             [done|rewrite !elem_of_cons; naive_solver]|]).
  case_bool_decide as Hin; [exfalso|done].
  rewrite !elem_of_cons, elem_of_nil in Hin. intuition congruence.
Qed.

Lemma elapsed_app tr1 tr2 : elapsed (tr1 ++ tr2) = elapsed tr1 + elapsed tr2.
Proof.
  induction tr1 as [|e tr1 IH]; simpl; [lia|].
  destruct e; lia.
Qed.

(** ** The leaf functions *)

Section Leaves.

Variable A0 : N.
Variable line : N → N → level.

Lemma readButtonStates_run w :
  readButtonStates line w =
    Done (mode_of (line (clock w) leftButtonPin) (line (clock w) rightButtonPin))
         (play (sample_events (line (clock w) leftButtonPin)
                              (line (clock w) rightButtonPin)) w).
Proof.
  unfold readButtonStates, mbind, M_bind, digitalRead, play, sample_events; cbn.
  destruct (line (clock w) leftButtonPin); rewrite ?decide_True, ?decide_False by done;
    cbn; destruct (line (clock w) rightButtonPin); reflexivity.
Qed.

Lemma buzzerClick_run w :
  buzzerClick A0 w = Done tt (play (click_events A0) w).
Proof. reflexivity. Qed.

Lemma disableSignals_run w :
  disableSignals w = Done tt (play (bank_events LOW) w).
Proof. reflexivity. Qed.

End Leaves.

(** ** The turn-signal animators *)

Section Animators.

Variable A0 : N.
Variable line : N → N → level.

Lemma leftTurnSignal_chase fuel :
  leftTurnSignal A0 line fuel = chase A0 line left leftSignalPins fuel.
Proof. reflexivity. Qed.

Lemma rightTurnSignal_chase fuel :
  rightTurnSignal A0 line fuel = chase A0 line right rightSignalPins fuel.
Proof. reflexivity. Qed.

Lemma engageHazardLights_cycles fuel :
  engageHazardLights A0 line fuel =
    (while_ fuel (fun flag => mret flag) (hazard_cycle A0 line fuel) true;; mret tt).
Proof. reflexivity. Qed.

(** One evaluation of the wait condition. *)
Lemma wait_unfold own fuel start flag w :
  wait_ line own (S fuel) start flag w =
    if bool_decide (ulong_sub ((clock w / 1000) mod ulong_max) start < interval) && flag
    then
      let l := line (clock w) leftButtonPin in
      let r := line (clock w) rightButtonPin in
      wait_ line own fuel start (if decide (mode_of l r = own) then true else false)
            (play (sample_events l r) w)
    else Done flag w.
Proof.
  unfold wait_. cbn [while_]. rewrite !bind_run. unfold millis, mret, M_ret.
  destruct (bool_decide _ && flag); [|reflexivity].
  by rewrite !bind_run, readButtonStates_run.
Qed.

Lemma wait_false own fuel start w :
  world_of (wait_ line own fuel start false w) = w ∧
  returned (wait_ line own fuel start false w) ≠ Some true.
Proof.
  destruct fuel as [|fuel]; [done|].
  rewrite wait_unfold, andb_false_r. done.
Qed.

End Animators.

(** ** Cancellation, for any behaviour of the buttons *)

Lemma calm_app own tr1 tr2 : calm own tr1 → calm own tr2 → calm own (tr1 ++ tr2).
Proof.
  induction 1 as [|p v tr _ IH|us tr _ IH|l r tr Hm _ IH]; intros H2; simpl.
  - done.
  - constructor; auto.
  - constructor; auto.
  - apply (calm_sample own l r); auto.
Qed.

Lemma calm_quiet own tr :
  forallb (fun e => match e with EvWrite _ _ | EvDelayMicroseconds _ => true | _ => false end) tr = true →
  calm own tr.
Proof.
  induction tr as [|e tr IH]; intros H; [constructor|].
  simpl in H. apply andb_true_iff in H as [He Htr].
  destruct e; try discriminate; constructor; auto.
Qed.

Lemma calm_click own A0 : calm own (click_events A0).
Proof. by apply calm_quiet. Qed.

Lemma calm_bank own v : calm own (bank_events v).
Proof. by apply calm_quiet. Qed.

Lemma shaped_prefix own k pre tr :
  calm own pre → shaped own k tr → shaped own k (pre ++ tr).
Proof.
  intros Hpre (c & Hc & Htr). exists (pre ++ c). split; [by apply calm_app|].
  destruct k.
  - destruct Htr as (l & r & Hne & ->). exists l, r. by rewrite app_assoc.
  - by subst.
Qed.

Lemma flag_run_prefix own pre r w :
  calm own pre → flag_run own r (play pre w) → flag_run own r w.
Proof.
  intros Hpre (tr & k & Hw & Hs & Hr). exists (pre ++ tr), k.
  split; [by rewrite play_app|]. split; [by apply shaped_prefix|done].
Qed.

(** In a calm trace followed by at most one more sample, a sample of
    another mode can only be that last one. *)
Lemma calm_cancel_last own c tail pre a b post :
  calm own c →
  tail = [] ∨ (∃ l r, tail = sample_events l r) →
  c ++ tail = pre ++ EvRead leftButtonPin a :: EvRead rightButtonPin b :: post →
  mode_of a b ≠ own →
  post = [EvDelay 1].
Proof.
  intros Hc Htail. revert pre. unfold sample_events in *.
  induction Hc as [|p v tr _ IH|us tr _ IH|l r tr Hm _ IH]; intros pre Heq Hne.
  - simpl in Heq. destruct Htail as [->|(l & r & ->)].
    + by destruct pre.
    + destruct pre as [|e1 [|e2 [|e3 pre]]]; simplify_eq/=; try done.
      by destruct pre.
  - destruct pre as [|e pre]; simplify_eq/=. eauto.
  - destruct pre as [|e pre]; simplify_eq/=. eauto.
  - destruct pre as [|e1 [|e2 [|e3 pre]]]; simplify_eq/=; eauto.
Qed.

Lemma shaped_cancel_last own k tr pre a b post :
  shaped own k tr →
  tr = pre ++ EvRead leftButtonPin a :: EvRead rightButtonPin b :: post →
  mode_of a b ≠ own →
  post = [EvDelay 1].
Proof.
  intros (c & Hc & Htr) Heq Hne. destruct k.
  - destruct Htr as (l & r & _ & ->).
    eapply (calm_cancel_last own c (sample_events l r)); eauto.
  - subst tr. eapply (calm_cancel_last own c []); eauto.
    by rewrite app_nil_r.
Qed.

Section Cancellation.

Variable A0 : N.
Variable line : N → N → level.
Variable own : blinkerstate.
Variable pins : list N.

Lemma flag_run_done_true w : flag_run own (Done true w) w.
Proof.
  exists [], false. split; [done|]. split; [|done].
  exists []. split; [constructor|done].
Qed.

Lemma flag_run_out_of_fuel w : flag_run own (OutOfFuel w) w.
Proof.
  exists [], false. split; [done|]. split; [|done].
  exists []. split; [constructor|done].
Qed.

Lemma wait_flag_run fuel start w :
  flag_run own (wait_ line own fuel start true w) w.
Proof.
  revert w. induction fuel as [|fuel IH]; intros w.
  - apply flag_run_out_of_fuel.
  - rewrite wait_unfold, andb_true_r.
    destruct (bool_decide _); [|apply flag_run_done_true].
    cbv zeta.
    set (l := line (clock w) leftButtonPin).
    set (r := line (clock w) rightButtonPin).
    destruct (decide (mode_of l r = own)) as [Hm|Hm].
    + apply (flag_run_prefix own (sample_events l r)); [|apply IH].
      rewrite <- (app_nil_r (sample_events l r)).
      apply calm_sample; [done|constructor].
    + destruct (wait_false line own fuel start (play (sample_events l r) w))
        as [Hw Hr].
      exists (sample_events l r), true. split; [done|]. split.
      * exists []. split; [constructor|]. by exists l, r.
      * destruct (returned _) as [[]|]; done.
Qed.

Lemma chase_step_flag_run fuel i w :
  flag_run own (chase_step A0 line own pins fuel i true w) w.
Proof.
  unfold chase_step. rewrite bind_run. unfold digitalWrite. cbn beta iota.
  rewrite bind_run, buzzerClick_run. cbn beta iota.
  rewrite bind_run. unfold millis. cbn beta iota.
  apply (flag_run_prefix own (EvWrite (nth i pins 0) HIGH :: click_events A0)).
  { constructor. apply calm_click. }
  apply wait_flag_run.
Qed.

Lemma for_false n i (body : nat → bool → M bool) w :
  for_ n i (fun flag => flag) body false w = Done false w.
Proof. by destruct n. Qed.

Lemma chase_for_flag_run fuel n i w :
  flag_run own (for_ n i (fun flag => flag) (chase_step A0 line own pins fuel) true w) w.
Proof.
  revert i w. induction n as [|n IH]; intros i w.
  - apply flag_run_done_true.
  - cbn [for_]. rewrite bind_run.
    pose proof (chase_step_flag_run fuel i w) as (tr & k & Hw & Hs & Hr).
    destruct (chase_step A0 line own pins fuel i true w) as [[] w1|w1];
      simpl in Hw, Hr; subst.
    + destruct Hs as (c & Hc & ->).
      by apply (flag_run_prefix own c); [|apply IH].
    + rewrite for_false. by exists tr, true.
    + by exists tr, k.
Qed.

Lemma chase_cycle_flag_run fuel w :
  flag_run own (chase_cycle A0 line own pins fuel true w) w.
Proof.
  unfold chase_cycle. rewrite bind_run, disableSignals_run.
  apply (flag_run_prefix own (bank_events LOW)); [apply calm_bank|].
  apply chase_for_flag_run.
Qed.

Lemma chase_while_flag_run fuel n w :
  let r := while_ n (fun flag => mret flag) (chase_cycle A0 line own pins fuel) true w in
  flag_run own r w ∧ returned r ≠ Some true.
Proof.
  cbv zeta. revert w. induction n as [|n IH]; intros w.
  - split; [apply flag_run_out_of_fuel|done].
  - rewrite while_flag_true.
    pose proof (chase_cycle_flag_run fuel w) as (tr & k & Hw & Hs & Hr).
    destruct (chase_cycle A0 line own pins fuel true w) as [[] w1|w1];
      simpl in Hw, Hr; subst.
    + destruct Hs as (c & Hc & ->). destruct (IH (play c w)) as [Hrun Hret].
      split; [|done]. by apply (flag_run_prefix own c).
    + destruct n as [|n]; (split; [by exists tr, true|done]).
    + split; [by exists tr, k|done].
Qed.

(** Every run of an animator, returned or not, leaves a shaped trace; a
    returned one was cancelled. *)
Lemma chase_shaped fuel w :
  ∃ tr cancelled,
    world_of (chase A0 line own pins fuel w) = play tr w ∧
    shaped own cancelled tr ∧
    (returned (chase A0 line own pins fuel w) = Some tt → cancelled = true).
Proof.
  unfold chase. rewrite bind_run.
  destruct (chase_while_flag_run fuel fuel w) as [(tr & k & Hw & Hs & Hr) Hret].
  destruct (while_ fuel _ _ true w) as [flag w1|w1]; simpl in *.
  - exists tr, k. split; [done|]. split; [done|]. intros _.
    destruct flag; [done|]. by subst.
  - exists tr, k. by split.
Qed.

End Cancellation.

(** ** Wrap-around of [millis] *)

Lemma ulong_sub_add q k :
  k < ulong_max → ulong_sub ((q + k) mod ulong_max) (q mod ulong_max) = k.
Proof.
  unfold ulong_sub, ulong_max. intros Hk.
  change (2 ^ 32) with 4294967296 in *.
  pose proof (N.mod_upper_bound q 4294967296 ltac:(lia)) as Ha.
  rewrite (N.Div0.mod_mod q).
  rewrite <- (N.Div0.add_mod_idemp_l q k).
  set (a := q mod 4294967296) in *. clearbody a.
  destruct (decide (a + k < 4294967296)) as [Hlt|Hge].
  - rewrite (N.mod_small (a + k)) by lia.
    replace (a + k + 4294967296 - a) with (k + 1 * 4294967296) by lia.
    rewrite N.Div0.mod_add. apply N.mod_small; lia.
  - replace (a + k) with ((a + k - 4294967296) + 1 * 4294967296) at 1 by lia.
    rewrite N.Div0.mod_add. rewrite (N.mod_small (a + k - _)) by lia.
    replace (a + k - 4294967296 + 4294967296 - a) with k by lia.
    apply N.mod_small; lia.
Qed.

Lemma millis_after c k : (c + 1000 * k) / 1000 = c / 1000 + k.
Proof. rewrite (N.mul_comm 1000 k). apply N.div_add. lia. Qed.

(** ** The animators while their mode is held *)

Lemma mode_of_levels own : mode_of (left_level own) (right_level own) = own.
Proof. by destruct own. Qed.

Lemma held_during_sub line own t0 t1 t0' t1' :
  held_during line own t0 t1 → t0 ≤ t0' → t1' ≤ t1 → held_during line own t0' t1'.
Proof. intros H ?? t ?. apply H. lia. Qed.

Lemma held_from_during line own t0 t0' t1 :
  held_from line own t0 → t0 ≤ t0' → held_during line own t0' t1.
Proof. intros H ? t ?. apply H. lia. Qed.

Lemma elapsed_click A0 : elapsed (click_events A0) = 2048.
Proof. reflexivity. Qed.

Lemma elapsed_bank v : elapsed (bank_events v) = 0.
Proof. reflexivity. Qed.

Lemma elapsed_wait own : elapsed (wait_events own) = 1000 * interval.
Proof. destruct own; vm_compute; reflexivity. Qed.

Section Held.

Variable A0 : N.
Variable line : N → N → level.
Variable own : blinkerstate.

Lemma wait_held_from n fuel k c0 w :
  (n < fuel)%nat →
  N.of_nat n + k = interval →
  clock w = c0 + 1000 * k →
  held_during line own (clock w) (c0 + 1000 * interval) →
  wait_ line own fuel ((c0 / 1000) mod ulong_max) true w =
    Done true (play (concat (repeat (sample_events (left_level own) (right_level own)) n)) w).
Proof.
  revert fuel k w. induction n as [|n IH]; intros fuel k w Hfuel Hk Hclock Hheld;
    (destruct fuel as [|fuel]; [lia|]); rewrite wait_unfold, andb_true_r;
    rewrite Hclock, millis_after, ulong_sub_add
      by (unfold ulong_max, interval in *; change (2 ^ 32) with 4294967296; lia).
  - rewrite bool_decide_eq_false_2 by lia. done.
  - rewrite bool_decide_eq_true_2 by lia. cbv zeta. rewrite <- Hclock.
    destruct (Hheld (clock w)) as [-> ->]; [unfold interval in *; lia|].
    rewrite mode_of_levels, decide_True by done.
    rewrite (IH fuel (k + 1)); [|lia|lia| |].
    + cbn [repeat concat]. by rewrite play_app.
    + rewrite clock_play. simpl. lia.
    + eapply held_during_sub; [done| |done]. rewrite clock_play. lia.
Qed.

Lemma wait_held fuel w :
  (N.to_nat interval < fuel)%nat →
  held_during line own (clock w) (clock w + 1000 * interval) →
  wait_ line own fuel ((clock w / 1000) mod ulong_max) true w =
    Done true (play (wait_events own) w).
Proof.
  intros Hfuel Hheld. apply (wait_held_from _ fuel 0); [done|lia|lia|done].
Qed.

End Held.

Section HeldChase.

Variable A0 : N.
Variable line : N → N → level.
Variable own : blinkerstate.
Variable pins : list N.

Lemma chase_step_held fuel i w :
  (N.to_nat interval < fuel)%nat →
  held_from line own (clock w) →
  chase_step A0 line own pins fuel i true w =
    Done true (play (step_events A0 own (nth i pins 0)) w).
Proof.
  intros Hfuel Hheld.
  unfold chase_step. rewrite bind_run. unfold digitalWrite. cbn beta iota.
  rewrite bind_run, buzzerClick_run. cbn beta iota.
  rewrite bind_run. unfold millis. cbn beta iota.
  rewrite wait_held; [|done|].
  - unfold step_events. by rewrite play_cons, play_app.
  - eapply held_from_during; [done|]. rewrite clock_play. simpl. lia.
Qed.

Lemma chase_for_held fuel n i w :
  (N.to_nat interval < fuel)%nat →
  held_from line own (clock w) →
  for_ n i (fun flag => flag) (chase_step A0 line own pins fuel) true w =
    Done true (play (concat (map (fun i => step_events A0 own (nth i pins 0)) (seq i n))) w).
Proof.
  intros Hfuel. revert i w. induction n as [|n IH]; intros i w Hheld; [done|].
  cbn [for_]. rewrite bind_run, chase_step_held by done.
  rewrite IH.
  - cbn [seq map concat]. by rewrite play_app.
  - intros t Ht. apply Hheld. rewrite clock_play in Ht. lia.
Qed.

Lemma chase_cycle_held fuel w :
  (N.to_nat interval < fuel)%nat →
  held_from line own (clock w) →
  chase_cycle A0 line own pins fuel true w =
    Done true (play (chase_events A0 own pins) w).
Proof.
  intros Hfuel Hheld. unfold chase_cycle.
  rewrite bind_run, disableSignals_run. cbn beta iota.
  rewrite chase_for_held; [|done|].
  - unfold chase_events. by rewrite play_app.
  - intros t Ht. apply Hheld. rewrite clock_play in Ht. lia.
Qed.

Lemma chase_while_held fuel n w :
  (N.to_nat interval < fuel)%nat →
  held_from line own (clock w) →
  while_ n (fun flag => mret flag) (chase_cycle A0 line own pins fuel) true w =
    OutOfFuel (play (concat (repeat (chase_events A0 own pins) n)) w).
Proof.
  intros Hfuel. revert w. induction n as [|n IH]; intros w Hheld; [done|].
  rewrite while_flag_true, chase_cycle_held by done.
  rewrite IH.
  - cbn [repeat concat]. by rewrite play_app.
  - intros t Ht. apply Hheld. rewrite clock_play in Ht. lia.
Qed.

(** While its mode is held an animator never returns: with fuel for [n]
    cycles it runs [n] full cycles. *)
Lemma chase_held fuel w :
  (N.to_nat interval < fuel)%nat →
  held_from line own (clock w) →
  chase A0 line own pins fuel w =
    OutOfFuel (play (concat (repeat (chase_events A0 own pins) fuel)) w).
Proof.
  intros Hfuel Hheld. unfold chase. by rewrite bind_run, chase_while_held.
Qed.

End HeldChase.

Section HeldHazards.

Variable A0 : N.
Variable line : N → N → level.

Lemma hazard_cycle_held fuel w :
  (N.to_nat interval < fuel)%nat →
  held_during line hazards (clock w) (clock w + 2 * (2048 + 1000 * interval)) →
  hazard_cycle A0 line fuel true w = Done true (play (hazard_events A0) w).
Proof.
  intros Hfuel Hheld. unfold hazard_cycle.
  rewrite bind_run, disableSignals_run. cbn beta iota.
  rewrite bind_run, buzzerClick_run. cbn beta iota.
  rewrite bind_run. unfold millis at 1. cbn beta iota.
  rewrite bind_run, wait_held; [|done|].
  2:{ eapply held_during_sub; [done| |]; rewrite !clock_play, elapsed_bank, elapsed_click; lia. }
  cbn beta iota.
  rewrite bind_run.
  change (for_ num_signal_lights 0 _ _ tt ?w) with (Done tt (play (bank_events HIGH) w)).
  cbn beta iota.
  rewrite bind_run, buzzerClick_run. cbn beta iota.
  rewrite bind_run. unfold millis at 1. cbn beta iota.
  rewrite wait_held; [|done|].
  2:{ eapply held_during_sub; [done| |];
        rewrite !clock_play, !elapsed_bank, !elapsed_click, !elapsed_wait; lia. }
  unfold hazard_events. by rewrite !play_app.
Qed.

Lemma hazard_while_held fuel n w :
  (N.to_nat interval < fuel)%nat →
  held_from line hazards (clock w) →
  while_ n (fun flag => mret flag) (hazard_cycle A0 line fuel) true w =
    OutOfFuel (play (concat (repeat (hazard_events A0) n)) w).
Proof.
  intros Hfuel. revert w. induction n as [|n IH]; intros w Hheld; [done|].
  rewrite while_flag_true, hazard_cycle_held; [|done|by eapply held_from_during].
  rewrite IH.
  - cbn [repeat concat]. by rewrite play_app.
  - intros t Ht. apply Hheld. rewrite clock_play in Ht. lia.
Qed.

End HeldHazards.

(** ** The turn signals return once their button is released for good *)

Section Release.

Variable A0 : N.
Variable line : N → N → level.
Variable own : blinkerstate.
Variable pins : list N.

(** From instant [t1] on the buttons never read as mode [own] again. *)
Variable t1 : N.
Hypothesis released :
  ∀ t, t1 ≤ t → mode_of (line t leftButtonPin) (line t rightButtonPin) ≠ own.

Lemma wait_returns n fuel k c0 w :
  (n < fuel)%nat →
  N.of_nat n + k = interval →
  clock w = c0 + 1000 * k →
  ∃ flag w',
    wait_ line own fuel ((c0 / 1000) mod ulong_max) true w = Done flag w' ∧
    clock w ≤ clock w' ∧
    (t1 ≤ clock w → (0 < n)%nat → flag = false).
Proof.
  revert fuel k w. induction n as [|n IH]; intros fuel k w Hfuel Hk Hclock;
    (destruct fuel as [|fuel]; [lia|]); rewrite wait_unfold, andb_true_r;
    rewrite Hclock, millis_after, ulong_sub_add
      by (unfold ulong_max, interval in *; change (2 ^ 32) with 4294967296; lia).
  - rewrite bool_decide_eq_false_2 by lia. exists true, w.
    split; [done|]. split; [lia|]. lia.
  - rewrite bool_decide_eq_true_2 by lia. cbv zeta. rewrite <- Hclock.
    set (l := line (clock w) leftButtonPin).
    set (r := line (clock w) rightButtonPin).
    destruct (decide (mode_of l r = own)) as [Hm|Hm].
    + destruct (IH fuel (k + 1) (play (sample_events l r) w))
        as (flag & w' & Hrun & Hle & _); [lia|lia|rewrite clock_play; simpl; lia|].
      exists flag, w'. split; [done|]. rewrite clock_play in Hle.
      split; [lia|]. intros Ht1 _. by destruct (released (clock w)).
    + destruct fuel as [|fuel]; [lia|].
      rewrite wait_unfold, andb_false_r.
      exists false, (play (sample_events l r) w). split; [done|].
      rewrite clock_play. split; [lia|done].
Qed.

Lemma chase_step_returns fuel i w :
  (N.to_nat interval < fuel)%nat →
  ∃ flag w',
    chase_step A0 line own pins fuel i true w = Done flag w' ∧
    clock w < clock w' ∧
    (t1 ≤ clock w → flag = false).
Proof.
  intros Hfuel.
  unfold chase_step. rewrite bind_run. unfold digitalWrite. cbn beta iota.
  rewrite bind_run, buzzerClick_run. cbn beta iota.
  rewrite bind_run. unfold millis. cbn beta iota.
  set (w1 := play (click_events A0) (apply_event (EvWrite (nth i pins 0) HIGH) w)).
  assert (clock w1 = clock w + 2048) as Hw1
    by (unfold w1; by rewrite clock_play, elapsed_click).
  destruct (wait_returns (N.to_nat interval) fuel 0 (clock w1) w1)
    as (flag & w' & Hrun & Hle & Hcancel); [done|lia|lia|].
  exists flag, w'. split; [done|]. split; [lia|].
  intros Ht1. apply Hcancel; [lia|]. unfold interval. lia.
Qed.

Lemma chase_for_returns fuel n i w :
  (N.to_nat interval < fuel)%nat →
  ∃ flag w',
    for_ n i (fun flag => flag) (chase_step A0 line own pins fuel) true w = Done flag w' ∧
    clock w ≤ clock w' ∧
    ((0 < n)%nat → clock w < clock w') ∧
    (t1 ≤ clock w → (0 < n)%nat → flag = false).
Proof.
  intros Hfuel. revert i w. induction n as [|n IH]; intros i w.
  - exists true, w. split; [done|]. split; [lia|]. split; lia.
  - cbn [for_]. rewrite bind_run.
    destruct (chase_step_returns fuel i w Hfuel) as (flag1 & w1 & -> & Hlt & Hcancel).
    destruct flag1.
    + destruct (IH (S i) w1) as (flag & w' & Hrun & Hle & _).
      exists flag, w'. split; [done|]. split; [lia|]. split; [lia|].
      intros Ht1 _. by specialize (Hcancel Ht1).
    + rewrite for_false. exists false, w1. split; [done|]. split; [lia|]. by split.
Qed.

Lemma chase_cycle_returns fuel w :
  (N.to_nat interval < fuel)%nat →
  ∃ flag w',
    chase_cycle A0 line own pins fuel true w = Done flag w' ∧
    clock w < clock w' ∧
    (t1 ≤ clock w → flag = false).
Proof.
  intros Hfuel. unfold chase_cycle.
  rewrite bind_run, disableSignals_run. cbn beta iota.
  destruct (chase_for_returns fuel num_signal_lights 0 (play (bank_events LOW) w) Hfuel)
    as (flag & w' & Hrun & _ & Hlt & Hcancel).
  rewrite clock_play, elapsed_bank in Hlt, Hcancel.
  exists flag, w'. split; [done|]. unfold num_signal_lights in *.
  split; [lia|]. intros Ht1. apply Hcancel; lia.
Qed.

Lemma chase_while_returns fuel m n w :
  (N.to_nat interval < fuel)%nat →
  (N.to_nat (t1 - clock w) ≤ m)%nat →
  (m + 1 < n)%nat →
  ∃ w',
    while_ n (fun flag => mret flag) (chase_cycle A0 line own pins fuel) true w =
      Done false w'.
Proof.
  intros Hfuel. revert n w. induction m as [|m IH]; intros n w Hm Hn;
    (destruct n as [|n]; [lia|]); rewrite while_flag_true;
    destruct (chase_cycle_returns fuel w Hfuel) as (flag & w1 & -> & Hlt & Hcancel);
    destruct flag.
  - assert (true = false) by (apply Hcancel; lia). done.
  - destruct n as [|n]; [lia|]. by exists w1.
  - apply IH; lia.
  - destruct n as [|n]; [lia|]. by exists w1.
Qed.

(** With enough fuel a turn signal returns. *)
Lemma chase_returns w :
  ∃ fuel w', chase A0 line own pins fuel w = Done tt w'.
Proof.
  set (m := N.to_nat (t1 - clock w)).
  exists (S (N.to_nat interval) + (m + 2))%nat.
  destruct (chase_while_returns (S (N.to_nat interval) + (m + 2)) m
              (S (N.to_nat interval) + (m + 2)) w) as [w' Hrun]; [lia|done|lia|].
  exists w'. unfold chase. by rewrite bind_run, Hrun.
Qed.

End Release.

Lemma steady_held m t0 : held_from (steady m) m t0.
Proof. intros t _. by destruct m. Qed.

(** ** The input sampler *)

(** C1: for each of the four combinations of the two button readings,
    [readButtonStates] returns the mode of the truth table: neither button
    gives off, the left one alone left, the right one alone right, both
    hazards. *)
Theorem C1_readButtonStates_truth_table :
  forall (line : N -> N -> level) (w : World),
    returned (readButtonStates line w) =
      Some (match line (clock w) leftButtonPin, line (clock w) rightButtonPin with
            | LOW, LOW => off
            | HIGH, LOW => left
            | LOW, HIGH => right
            | HIGH, HIGH => hazards
            end).
Proof.
  intros line w. rewrite readButtonStates_run. simpl.
  by destruct (line (clock w) leftButtonPin), (line (clock w) rightButtonPin).
Qed.

(** C9: [readButtonStates] leaves the output latches of the port as they
    were: all it adds to the log is the two reads and the debounce pause, no
    write; and the mode it returns is a function of the two levels read. *)
Theorem C9_readButtonStates_frame :
  (forall (line : N -> N -> level) (w : World),
     exists m w',
       readButtonStates line w = Done m w' /\
       port w' = port w /\
       log w' = log w ++ [EvRead leftButtonPin (line (clock w) leftButtonPin);
                          EvRead rightButtonPin (line (clock w) rightButtonPin);
                          EvDelay 1]) /\
  (exists f : level -> level -> blinkerstate,
     forall (line : N -> N -> level) (w : World),
       returned (readButtonStates line w) =
         Some (f (line (clock w) leftButtonPin) (line (clock w) rightButtonPin))).
Proof.
  split.
  - intros line w. eexists _, _. split; [apply readButtonStates_run|].
    split; [by rewrite port_play|by rewrite log_play].
  - exists mode_of. intros line w. by rewrite readButtonStates_run.
Qed.

(** ** The buzzer driver *)

(** C6: every call of [buzzerClick] returns, and all it adds to the log is
    eight times: buzzer pin high, 128 microseconds, buzzer pin low, 128
    microseconds.  No other pin is written. *)
Theorem C6_buzzerClick_eight_toggles :
  forall (A0 : N) (w : World),
    exists w',
      buzzerClick A0 w = Done tt w' /\
      log w' = log w ++
        concat (repeat [EvWrite A0 HIGH; EvDelayMicroseconds 128;
                        EvWrite A0 LOW; EvDelayMicroseconds 128] 8).
Proof.
  intros A0 w. eexists. split; [apply buzzerClick_run|]. by rewrite log_play.
Qed.

(** C10: when [buzzerClick] returns the buzzer pin is low, whatever it was
    before. *)
Theorem C10_buzzerClick_leaves_low :
  forall (A0 : N) (w : World),
    exists w',
      buzzerClick A0 w = Done tt w' /\ pin_level (port w') A0 = LOW.
Proof.
  intros A0 w. eexists. split; [apply buzzerClick_run|].
  rewrite port_play, replay_click. unfold pin_level.
  by rewrite lookup_insert_eq.
Qed.

(** ** The all-off action *)

(** C7: from any state of the port, [disableSignals] returns with every
    signal output of both banks low, and running it again leaves the port as
    the first run left it. *)
Theorem C7_disableSignals_all_low_idempotent :
  forall (w : World),
    exists w1 w2,
      disableSignals w = Done tt w1 /\
      Forall (fun pin => pin_level (port w1) pin = LOW)
             (leftSignalPins ++ rightSignalPins) /\
      disableSignals w1 = Done tt w2 /\
      port w2 = port w1.
Proof.
  intros w. eexists _, _. split; [apply disableSignals_run|].
  split; [|split; [apply disableSignals_run|]].
  - rewrite port_play. unfold pin_level.
    repeat constructor; by rewrite lookup_replay_bank.
  - rewrite !port_play. apply map_eq. intros pin.
    rewrite !lookup_replay_bank. by case_bool_decide.
Qed.

(** ** Cancellation of the turn signals *)

Lemma chase_stops_at_cancel A0 line own pins fuel w pre a b post :
  log (world_of (chase A0 line own pins fuel w)) =
    log w ++ pre ++ EvRead leftButtonPin a :: EvRead rightButtonPin b :: post →
  mode_of a b ≠ own →
  post = [EvDelay 1].
Proof.
  intros Hlog Hne.
  destruct (chase_shaped A0 line own pins fuel w) as (tr & k & Hw & Hs & _).
  rewrite Hw, log_play in Hlog. apply app_inv_head in Hlog.
  by eapply shaped_cancel_last.
Qed.

Lemma chase_returns_at_cancel A0 line own pins fuel w w' :
  chase A0 line own pins fuel w = Done tt w' →
  ∃ pre l r,
    mode_of l r ≠ own ∧
    log w' = log w ++ pre ++ sample_events l r ∧
    port w' = port (play pre w).
Proof.
  intros Hrun.
  destruct (chase_shaped A0 line own pins fuel w) as (tr & k & Hw & Hs & Hk).
  rewrite Hrun in Hw, Hk. simpl in Hw. rewrite Hk in Hs by done.
  destruct Hs as (c & _ & l & r & Hne & ->).
  exists c, l, r. split; [done|]. subst w'. split.
  - by rewrite log_play.
  - by rewrite play_app, !port_play.
Qed.

(** C5: in [leftTurnSignal], and in [rightTurnSignal], once a sample of the
    buttons reads a mode other than the animator's own, the only thing that
    still happens is the debounce pause of that very sample: no slot is
    activated, no click is made and nothing is blanked after it. *)
Theorem C5_turn_signal_stops_at_cancel :
  forall (A0 : N) (line : N -> N -> level) (fuel : nat) (w : World)
         (pre post : list event) (a b : level),
    (log (world_of (leftTurnSignal A0 line fuel w)) =
       log w ++ pre ++ EvRead leftButtonPin a :: EvRead rightButtonPin b :: post ->
     mode_of a b <> left ->
     post = [EvDelay 1]) /\
    (log (world_of (rightTurnSignal A0 line fuel w)) =
       log w ++ pre ++ EvRead leftButtonPin a :: EvRead rightButtonPin b :: post ->
     mode_of a b <> right ->
     post = [EvDelay 1]).
Proof.
  intros A0 line fuel w pre post a b. split.
  - rewrite leftTurnSignal_chase. apply chase_stops_at_cancel.
  - rewrite rightTurnSignal_chase. apply chase_stops_at_cancel.
Qed.

(** Left held for 5 ms and right held for 5 ms, then released: the trace
    ends with the sample that saw the release. *)
Lemma C5_turn_signal_stops_at_cancel_witness :
  (log (world_of (leftTurnSignal A0_atmega328 (released_at 5000 left) 100 boot)) =
     log boot ++
     (bank_events LOW ++ EvWrite 9 HIGH :: click_events A0_atmega328 ++
      concat (repeat (sample_events HIGH LOW) 3)) ++
     EvRead leftButtonPin LOW :: EvRead rightButtonPin LOW :: [EvDelay 1] /\
   mode_of LOW LOW <> left /\
   [EvDelay 1] = [EvDelay 1]) /\
  (log (world_of (rightTurnSignal A0_atmega328 (released_at 5000 right) 100 boot)) =
     log boot ++
     (bank_events LOW ++ EvWrite 3 HIGH :: click_events A0_atmega328 ++
      concat (repeat (sample_events LOW HIGH) 3)) ++
     EvRead leftButtonPin LOW :: EvRead rightButtonPin LOW :: [EvDelay 1] /\
   mode_of LOW LOW <> right /\
   [EvDelay 1] = [EvDelay 1]).
Proof.
  split.
  - assert (H1 : log (world_of (leftTurnSignal A0_atmega328 (released_at 5000 left) 100 boot)) =
       log boot ++
       (bank_events LOW ++ EvWrite 9 HIGH :: click_events A0_atmega328 ++
        concat (repeat (sample_events HIGH LOW) 3)) ++
       EvRead leftButtonPin LOW :: EvRead rightButtonPin LOW :: [EvDelay 1])
      by (vm_compute; reflexivity).
    assert (H2 : mode_of LOW LOW <> left) by discriminate.
    split; [exact H1|]. split; [exact H2|].
    exact (proj1 (C5_turn_signal_stops_at_cancel _ _ _ _ _ _ _ _) H1 H2).
  - assert (H1 : log (world_of (rightTurnSignal A0_atmega328 (released_at 5000 right) 100 boot)) =
       log boot ++
       (bank_events LOW ++ EvWrite 3 HIGH :: click_events A0_atmega328 ++
        concat (repeat (sample_events LOW HIGH) 3)) ++
       EvRead leftButtonPin LOW :: EvRead rightButtonPin LOW :: [EvDelay 1])
      by (vm_compute; reflexivity).
    assert (H2 : mode_of LOW LOW <> right) by discriminate.
    split; [exact H1|]. split; [exact H2|].
    exact (proj2 (C5_turn_signal_stops_at_cancel _ _ _ _ _ _ _ _) H1 H2).
Defined.

(** C8: when [leftTurnSignal], or [rightTurnSignal], returns, the last thing
    it did was the sample that read another mode: no blanking pass follows,
    and the port is as it was when that sample was taken, so every signal
    output lit then is still lit.  And it does return, given enough fuel,
    once the buttons have stopped reading its mode for good. *)
Theorem C8_turn_signal_exit_without_blanking :
  forall (A0 : N) (line : N -> N -> level) (w : World),
    (forall (fuel : nat) (w' : World),
       leftTurnSignal A0 line fuel w = Done tt w' ->
       exists pre l r,
         mode_of l r <> left /\
         log w' = log w ++ pre ++ sample_events l r /\
         port w' = port (play pre w)) /\
    (forall (fuel : nat) (w' : World),
       rightTurnSignal A0 line fuel w = Done tt w' ->
       exists pre l r,
         mode_of l r <> right /\
         log w' = log w ++ pre ++ sample_events l r /\
         port w' = port (play pre w)) /\
    (forall t1 : N,
       (forall t, t1 <= t ->
                  mode_of (line t leftButtonPin) (line t rightButtonPin) <> left) ->
       exists fuel w', leftTurnSignal A0 line fuel w = Done tt w') /\
    (forall t1 : N,
       (forall t, t1 <= t ->
                  mode_of (line t leftButtonPin) (line t rightButtonPin) <> right) ->
       exists fuel w', rightTurnSignal A0 line fuel w = Done tt w').
Proof.
  intros A0 line w. split; [|split; [|split]].
  - intros fuel w'. rewrite leftTurnSignal_chase. apply chase_returns_at_cancel.
  - intros fuel w'. rewrite rightTurnSignal_chase. apply chase_returns_at_cancel.
  - intros t1 Hreleased.
    destruct (chase_returns A0 line left leftSignalPins t1 Hreleased w) as (fuel & w' & Hrun).
    exists fuel, w'. by rewrite leftTurnSignal_chase.
  - intros t1 Hreleased.
    destruct (chase_returns A0 line right rightSignalPins t1 Hreleased w) as (fuel & w' & Hrun).
    exists fuel, w'. by rewrite rightTurnSignal_chase.
Qed.

(** Left held for 5 ms, then released (and the same on the right): the call
    returns, and the port is as the release found it. *)
Lemma C8_turn_signal_exit_without_blanking_witness :
  (leftTurnSignal A0_atmega328 (released_at 5000 left) 100 boot =
     Done tt (world_of (leftTurnSignal A0_atmega328 (released_at 5000 left) 100 boot)) /\
   exists pre l r,
     mode_of l r <> left /\
     log (world_of (leftTurnSignal A0_atmega328 (released_at 5000 left) 100 boot)) =
       log boot ++ pre ++ sample_events l r /\
     port (world_of (leftTurnSignal A0_atmega328 (released_at 5000 left) 100 boot)) =
       port (play pre boot)) /\
  (rightTurnSignal A0_atmega328 (released_at 5000 right) 100 boot =
     Done tt (world_of (rightTurnSignal A0_atmega328 (released_at 5000 right) 100 boot)) /\
   exists pre l r,
     mode_of l r <> right /\
     log (world_of (rightTurnSignal A0_atmega328 (released_at 5000 right) 100 boot)) =
       log boot ++ pre ++ sample_events l r /\
     port (world_of (rightTurnSignal A0_atmega328 (released_at 5000 right) 100 boot)) =
       port (play pre boot)) /\
  ((forall t, 5000 <= t ->
              mode_of (released_at 5000 left t leftButtonPin)
                      (released_at 5000 left t rightButtonPin) <> left) /\
   exists fuel w',
     leftTurnSignal A0_atmega328 (released_at 5000 left) fuel boot = Done tt w') /\
  ((forall t, 5000 <= t ->
              mode_of (released_at 5000 right t leftButtonPin)
                      (released_at 5000 right t rightButtonPin) <> right) /\
   exists fuel w',
     rightTurnSignal A0_atmega328 (released_at 5000 right) fuel boot = Done tt w').
Proof.
  pose proof (C8_turn_signal_exit_without_blanking A0_atmega328 (released_at 5000 left) boot)
    as (HL & _ & HLret & _).
  pose proof (C8_turn_signal_exit_without_blanking A0_atmega328 (released_at 5000 right) boot)
    as (_ & HR & _ & HRret).
  split; [|split; [|split]].
  - assert (H1 : leftTurnSignal A0_atmega328 (released_at 5000 left) 100 boot =
       Done tt (world_of (leftTurnSignal A0_atmega328 (released_at 5000 left) 100 boot)))
      by (vm_compute; reflexivity).
    split; [exact H1|exact (HL _ _ H1)].
  - assert (H1 : rightTurnSignal A0_atmega328 (released_at 5000 right) 100 boot =
       Done tt (world_of (rightTurnSignal A0_atmega328 (released_at 5000 right) 100 boot)))
      by (vm_compute; reflexivity).
    split; [exact H1|exact (HR _ _ H1)].
  - assert (H2 : forall t, 5000 <= t ->
              mode_of (released_at 5000 left t leftButtonPin)
                      (released_at 5000 left t rightButtonPin) <> left).
    { intros t Ht. unfold released_at. rewrite !decide_False by lia. discriminate. }
    split; [exact H2|exact (HLret 5000 H2)].
  - assert (H2 : forall t, 5000 <= t ->
              mode_of (released_at 5000 right t leftButtonPin)
                      (released_at 5000 right t rightButtonPin) <> right).
    { intros t Ht. unfold released_at. rewrite !decide_False by lia. discriminate. }
    split; [exact H2|exact (HRret 5000 H2)].
Defined.

(** ** The chase while its mode is held *)

Lemma replay_wait own p : replay (wait_events own) p = p.
Proof. apply replay_no_write. by destruct own; vm_compute. Qed.

Lemma replay_step A0 own pin p :
  replay (step_events A0 own pin) p = <[A0:=LOW]> (<[pin:=HIGH]> p).
Proof.
  unfold step_events.
  change (EvWrite pin HIGH :: ?tr) with ([EvWrite pin HIGH] ++ tr).
  by rewrite !replay_app, replay_wait, replay_click.
Qed.

Lemma pin_level_step A0 own pin p q :
  pin_level (replay (step_events A0 own pin) p) q =
    if decide (A0 = q) then LOW
    else if decide (pin = q) then HIGH else pin_level p q.
Proof.
  unfold pin_level. rewrite replay_step, !lookup_insert.
  by repeat case_decide.
Qed.

Lemma pin_level_bank v p q :
  pin_level (replay (bank_events v) p) q =
    if bool_decide (q ∈ leftSignalPins ++ rightSignalPins) then v else pin_level p q.
Proof.
  unfold pin_level. rewrite lookup_replay_bank. by case_bool_decide.
Qed.

Lemma chase_prefix_lit A0 own pins other k p :
  (k < 4)%nat →
  pins = leftSignalPins ∧ other = rightSignalPins ∨
  pins = rightSignalPins ∧ other = leftSignalPins →
  A0 ∉ leftSignalPins ++ rightSignalPins →
  map (pin_level (replay (chase_prefix A0 own pins (S k)) p)) pins =
    repeat HIGH (S k) ++ repeat LOW (3 - k) ∧
  map (pin_level (replay (chase_prefix A0 own pins (S k)) p)) other = repeat LOW 4.
Proof.
  intros Hk Hpins HA0.
  assert (Forall (fun pin => A0 ≠ pin) [9; 10; 11; 12; 3; 4; 5; 6]) as Hne.
  { apply Forall_forall. intros pin Hpin ->. by apply HA0. }
  repeat (apply Forall_cons in Hne as [? Hne]).
  unfold chase_prefix.
  destruct Hpins as [[-> ->]|[-> ->]];
    (destruct k as [|[|[|[|k]]]]; [| | | |lia]);
    cbn [seq map concat nth leftSignalPins rightSignalPins repeat app Nat.sub];
    rewrite ?app_nil_r, ?replay_app, ?pin_level_step, ?pin_level_bank;
    repeat (case_decide; try done);
    rewrite ?bool_decide_eq_true_2 by (apply list_elem_of_In; vm_compute; tauto);
    done.
Qed.

(** C2, as stated, fails: with the left button held for ever, right after
    slot 1 is activated (1542 events into the run, 502.048 ms after the
    call) slots 0 and 1 of the left bank are both lit. *)
Lemma C2_counterexample_two_slots_lit :
  ¬ one_at_a_time leftSignalPins boot
      (log (world_of (leftTurnSignal A0_atmega328 (steady left) 501 boot))).
Proof.
  intros H. specialize (H 1542%nat). revert H.
  rewrite leftTurnSignal_chase, chase_held;
    [|vm_compute; lia|apply steady_held].
  cbn [world_of]. rewrite log_play. cbn [log boot app].
  replace (repeat (chase_events A0_atmega328 left leftSignalPins) 501)
    with (chase_events A0_atmega328 left leftSignalPins ::
          repeat (chase_events A0_atmega328 left leftSignalPins) 500)
    by reflexivity.
  cbn [concat]. rewrite take_app_le by (vm_compute; lia).
  vm_compute. lia.
Qed.

(** C2, amended: while its mode is held an animator never returns and
    repeats one cycle: blank both banks, then for the slots 0 to 3 of its
    bank, in order: activate the slot, click, and wait a full interval of
    500 one-millisecond samples before the next slot.  A slot is not
    switched off when the next one is activated: at the end of step [k] the
    slots 0 to [k] of the bank are lit, the later ones and the whole other
    bank are dark, until the next cycle blanks them all. *)
Theorem C2_chase_accumulates_in_slot_order :
  forall (A0 : N) (fuel : nat) (w : World),
    (N.to_nat interval < fuel)%nat ->
    (forall line : N -> N -> level,
       held_from line left (clock w) ->
       leftTurnSignal A0 line fuel w =
         OutOfFuel (play (concat (repeat (chase_events A0 left leftSignalPins) fuel)) w)) /\
    (forall line : N -> N -> level,
       held_from line right (clock w) ->
       rightTurnSignal A0 line fuel w =
         OutOfFuel (play (concat (repeat (chase_events A0 right rightSignalPins) fuel)) w)) /\
    chase_events A0 left leftSignalPins =
      bank_events LOW ++
      (EvWrite 9 HIGH :: click_events A0 ++ wait_events left) ++
      (EvWrite 10 HIGH :: click_events A0 ++ wait_events left) ++
      (EvWrite 11 HIGH :: click_events A0 ++ wait_events left) ++
      (EvWrite 12 HIGH :: click_events A0 ++ wait_events left) /\
    chase_events A0 right rightSignalPins =
      bank_events LOW ++
      (EvWrite 3 HIGH :: click_events A0 ++ wait_events right) ++
      (EvWrite 4 HIGH :: click_events A0 ++ wait_events right) ++
      (EvWrite 5 HIGH :: click_events A0 ++ wait_events right) ++
      (EvWrite 6 HIGH :: click_events A0 ++ wait_events right) /\
    elapsed (wait_events left) = 1000 * interval /\
    elapsed (wait_events right) = 1000 * interval /\
    (~ In A0 (leftSignalPins ++ rightSignalPins) ->
     forall (k : nat) (p : gmap N level),
       (k < 4)%nat ->
       (map (pin_level (replay (chase_prefix A0 left leftSignalPins (S k)) p)) leftSignalPins =
          repeat HIGH (S k) ++ repeat LOW (3 - k) /\
        map (pin_level (replay (chase_prefix A0 left leftSignalPins (S k)) p)) rightSignalPins =
          repeat LOW 4) /\
       (map (pin_level (replay (chase_prefix A0 right rightSignalPins (S k)) p)) rightSignalPins =
          repeat HIGH (S k) ++ repeat LOW (3 - k) /\
        map (pin_level (replay (chase_prefix A0 right rightSignalPins (S k)) p)) leftSignalPins =
          repeat LOW 4)).
Proof.
  intros A0 fuel w Hfuel.
  split; [intros line Hheld; rewrite leftTurnSignal_chase; by apply chase_held|].
  split; [intros line Hheld; rewrite rightTurnSignal_chase; by apply chase_held|].
  split; [unfold chase_events, step_events; cbn [seq map concat nth leftSignalPins num_signal_lights];
          by rewrite app_nil_r|].
  split; [unfold chase_events, step_events; cbn [seq map concat nth rightSignalPins num_signal_lights];
          by rewrite app_nil_r|].
  split; [apply elapsed_wait|]. split; [apply elapsed_wait|].
  intros HA0 k p Hk.
  assert (A0 ∉ leftSignalPins ++ rightSignalPins) as HA0' by by rewrite list_elem_of_In.
  split; apply chase_prefix_lit; auto.
Qed.

(** Left (or right) held for ever on a board whose [A0] is pin 14: 501
    cycles for 501 units of fuel, and two slots lit at the end of step 1. *)
Lemma C2_chase_accumulates_in_slot_order_witness :
  (N.to_nat interval < 501)%nat /\
  held_from (steady left) left (clock boot) /\
  held_from (steady right) right (clock boot) /\
  ~ In A0_atmega328 (leftSignalPins ++ rightSignalPins) /\
  leftTurnSignal A0_atmega328 (steady left) 501 boot =
    OutOfFuel (play (concat (repeat (chase_events A0_atmega328 left leftSignalPins) 501)) boot) /\
  rightTurnSignal A0_atmega328 (steady right) 501 boot =
    OutOfFuel (play (concat (repeat (chase_events A0_atmega328 right rightSignalPins) 501)) boot) /\
  map (pin_level (replay (chase_prefix A0_atmega328 left leftSignalPins 2) ∅)) leftSignalPins =
    [HIGH; HIGH; LOW; LOW].
Proof.
  assert (H1 : (N.to_nat interval < 501)%nat) by (vm_compute; lia).
  assert (H2 : ~ In A0_atmega328 (leftSignalPins ++ rightSignalPins))
    by (vm_compute; intuition discriminate).
  pose proof (C2_chase_accumulates_in_slot_order A0_atmega328 501 boot H1)
    as (HL & HR & _ & _ & _ & _ & Hlit).
  split; [exact H1|]. split; [apply steady_held|]. split; [apply steady_held|].
  split; [exact H2|].
  split; [exact (HL _ (steady_held left _))|].
  split; [exact (HR _ (steady_held right _))|].
  exact (proj1 (proj1 (Hlit H2 1%nat ∅ ltac:(lia)))).
Defined.

(** ** The hazard lights *)

(** C4: a cycle of [engageHazardLights] during which the buttons keep
    reading hazards does, in this order: both banks low, one click, a wait
    of a full interval, all eight signal outputs high, one click, a wait of
    a full interval; it leaves the flag set, so the loop goes round again.
    With the buttons held for ever the function never returns, and fuel for
    [n] rounds gives [n] such cycles. *)
Theorem C4_hazard_cycle_order :
  forall (A0 : N) (line : N -> N -> level) (fuel : nat) (w : World),
    (N.to_nat interval < fuel)%nat ->
    engageHazardLights A0 line fuel =
      (while_ fuel (fun flag => mret flag) (hazard_cycle A0 line fuel) true;; mret tt) /\
    (held_during line hazards (clock w) (clock w + 2 * (2048 + 1000 * interval)) ->
     hazard_cycle A0 line fuel true w =
       Done true (play (bank_events LOW ++ click_events A0 ++ wait_events hazards ++
                        bank_events HIGH ++ click_events A0 ++ wait_events hazards) w)) /\
    (held_from line hazards (clock w) ->
     engageHazardLights A0 line fuel w =
       OutOfFuel (play (concat (repeat
         (bank_events LOW ++ click_events A0 ++ wait_events hazards ++
          bank_events HIGH ++ click_events A0 ++ wait_events hazards) fuel)) w)) /\
    elapsed (wait_events hazards) = 1000 * interval /\
    bank_events HIGH =
      [EvWrite 9 HIGH; EvWrite 3 HIGH; EvWrite 10 HIGH; EvWrite 4 HIGH;
       EvWrite 11 HIGH; EvWrite 5 HIGH; EvWrite 12 HIGH; EvWrite 6 HIGH] /\
    bank_events LOW =
      [EvWrite 9 LOW; EvWrite 3 LOW; EvWrite 10 LOW; EvWrite 4 LOW;
       EvWrite 11 LOW; EvWrite 5 LOW; EvWrite 12 LOW; EvWrite 6 LOW].
Proof.
  intros A0 line fuel w Hfuel.
  split; [reflexivity|].
  split; [intros Hheld; by apply hazard_cycle_held|].
  split.
  - intros Hheld. rewrite engageHazardLights_cycles, bind_run.
    by rewrite hazard_while_held.
  - split; [apply elapsed_wait|]. by split.
Qed.

(** Both buttons held for ever: the first cycle from boot, and 501 cycles
    for 501 units of fuel. *)
Lemma C4_hazard_cycle_order_witness :
  (N.to_nat interval < 501)%nat /\
  held_during (steady hazards) hazards (clock boot)
              (clock boot + 2 * (2048 + 1000 * interval)) /\
  held_from (steady hazards) hazards (clock boot) /\
  hazard_cycle A0_atmega328 (steady hazards) 501 true boot =
    Done true (play (bank_events LOW ++ click_events A0_atmega328 ++ wait_events hazards ++
                     bank_events HIGH ++ click_events A0_atmega328 ++ wait_events hazards) boot) /\
  engageHazardLights A0_atmega328 (steady hazards) 501 boot =
    OutOfFuel (play (concat (repeat
      (bank_events LOW ++ click_events A0_atmega328 ++ wait_events hazards ++
       bank_events HIGH ++ click_events A0_atmega328 ++ wait_events hazards) 501)) boot).
Proof.
  assert (H1 : (N.to_nat interval < 501)%nat) by (vm_compute; lia).
  assert (H2 : held_from (steady hazards) hazards (clock boot)) by apply steady_held.
  assert (H3 : held_during (steady hazards) hazards (clock boot)
                 (clock boot + 2 * (2048 + 1000 * interval)))
    by (intros t _; split; reflexivity).
  pose proof (C4_hazard_cycle_order A0_atmega328 (steady hazards) 501 boot H1)
    as (_ & Hcycle & Hrun & _).
  split; [exact H1|]. split; [exact H3|]. split; [exact H2|].
  split; [exact (Hcycle H3)|exact (Hrun H2)].
Defined.

(** C3, on the code: both buttons are held for 5 ms and then released, so
    the fourth sample of the first wait, the one of the dark phase, reads
    off.  After that sample [engageHazardLights] still writes all eight
    signal outputs high and clicks the buzzer (24 pin writes), and it
    returns with every signal output lit.  The same happens when the call
    comes from [loop], which has sampled hazards at boot. *)
Theorem C3_hazard_cancel_in_dark_phase_still_lights :
  (exists w',
     engageHazardLights A0_atmega328 (released_at 5000 hazards) 100 boot = Done tt w' /\
     log w' =
       (bank_events LOW ++ click_events A0_atmega328 ++
        concat (repeat (sample_events HIGH HIGH) 3)) ++
       sample_events LOW LOW ++
       (bank_events HIGH ++ click_events A0_atmega328) /\
     mode_of LOW LOW = off /\
     Forall (fun pin => pin_level (port w') pin = HIGH)
            (leftSignalPins ++ rightSignalPins)) /\
  (exists w',
     loop A0_atmega328 (released_at 5000 hazards) 100 boot = Done tt w' /\
     log w' =
       (sample_events HIGH HIGH ++
        bank_events LOW ++ click_events A0_atmega328 ++
        concat (repeat (sample_events HIGH HIGH) 2)) ++
       sample_events LOW LOW ++
       (bank_events HIGH ++ click_events A0_atmega328) /\
     Forall (fun pin => pin_level (port w') pin = HIGH)
            (leftSignalPins ++ rightSignalPins)).
Proof.
  split.
  - exists (world_of (engageHazardLights A0_atmega328 (released_at 5000 hazards) 100 boot)).
    split; [vm_compute; reflexivity|].
    split; [vm_compute; reflexivity|].
    split; [reflexivity|].
    repeat constructor; vm_compute; reflexivity.
  - exists (world_of (loop A0_atmega328 (released_at 5000 hazards) 100 boot)).
    split; [vm_compute; reflexivity|].
    split; [vm_compute; reflexivity|].
    repeat constructor; vm_compute; reflexivity.
Qed.

(** ** What the sketch never does *)

Lemma emits_ret {A} P (a : A) : emits P (mret a).
Proof. intros w. exists []. by split. Qed.

Lemma emits_bind {A B} P (m : M A) (f : A → M B) :
  emits P m → (∀ a, emits P (f a)) → emits P (m ≫= f).
Proof.
  intros Hm Hf w. rewrite bind_run.
  destruct (Hm w) as (tr1 & Hw1 & Htr1).
  destruct (m w) as [a w1|w1]; simpl in Hw1; subst w1.
  - destruct (Hf a (play tr1 w)) as (tr2 & Hw2 & Htr2).
    exists (tr1 ++ tr2). rewrite play_app. split; [done|]. by apply Forall_app.
  - by exists tr1.
Qed.

Lemma emits_event {A} P (a : A) e :
  P e → emits P (fun w => Done a (apply_event e w)).
Proof. intros He w. exists [e]. split; [done|]. by constructor. Qed.

Lemma emits_while {S} P (cond : S → M bool) (body : S → M S) fuel s :
  (∀ s, emits P (cond s)) → (∀ s, emits P (body s)) →
  emits P (while_ fuel cond body s).
Proof.
  intros Hcond Hbody. revert s. induction fuel as [|fuel IH]; intros s.
  - intros w. exists []. by split.
  - cbn [while_]. apply emits_bind; [done|]. intros [].
    + apply emits_bind; [done|]. apply IH.
    + apply emits_ret.
Qed.

Lemma emits_for {S} P (cond : S → bool) (body : nat → S → M S) n i s :
  (∀ j s, (i ≤ j < i + n)%nat → emits P (body j s)) →
  emits P (for_ n i cond body s).
Proof.
  revert i s. induction n as [|n IH]; intros i s Hbody; [apply emits_ret|].
  cbn [for_]. destruct (cond s); [|apply emits_ret].
  apply emits_bind; [apply Hbody; lia|]. intros s'.
  apply IH. intros j s'' Hj. apply Hbody. lia.
Qed.

Lemma emits_millis P : emits P millis.
Proof. intros w. exists []. by split. Qed.

Lemma emits_digitalRead P line pin :
  (∀ v, P (EvRead pin v)) → emits P (digitalRead line pin).
Proof. intros HP w. exists [EvRead pin (line (clock w) pin)]. split; [done|]. by constructor. Qed.

Lemma emits_readButtonStates P line :
  (∀ v, P (EvRead leftButtonPin v)) → (∀ v, P (EvRead rightButtonPin v)) →
  P (EvDelay 1) →
  emits P (readButtonStates line).
Proof.
  intros Hl Hr Hd. unfold readButtonStates.
  apply emits_bind; [by apply emits_digitalRead|]. intros l.
  apply emits_bind.
  - destruct (decide (l = HIGH)); (apply emits_bind; [by apply emits_digitalRead|]);
      intros r; destruct (decide (r = HIGH)); apply emits_ret.
  - intros state. apply emits_bind; [by apply (emits_event P tt)|].
    intros _. apply emits_ret.
Qed.

Lemma emits_buzzerClick P A0 :
  (∀ v, P (EvWrite A0 v)) → P (EvDelayMicroseconds 128) →
  emits P (buzzerClick A0).
Proof.
  intros Hw Hd. unfold buzzerClick. apply emits_for. intros j [] _.
  repeat (apply emits_bind; [by apply (emits_event P tt)|]; intros _).
  by apply (emits_event P tt).
Qed.

Lemma signal_pin_nth pins i :
  pins = leftSignalPins ∨ pins = rightSignalPins →
  (i < 4)%nat →
  nth i pins 0 ∈ pins ∧ nth i pins 0 ∈ leftSignalPins ++ rightSignalPins.
Proof.
  intros [-> | ->] Hi; (destruct i as [|[|[|[|i]]]]; [| | | |lia]);
    split; apply list_elem_of_In; vm_compute; tauto.
Qed.

Lemma emits_bank P v :
  (∀ pin, pin ∈ leftSignalPins ++ rightSignalPins → P (EvWrite pin v)) →
  emits P
    (for_ num_signal_lights 0 (fun _ : unit => true)
       (fun i _ =>
          digitalWrite (nth i leftSignalPins 0) v;;
          digitalWrite (nth i rightSignalPins 0) v) tt).
Proof.
  intros Hw. apply emits_for. intros j [] Hj. unfold num_signal_lights in Hj.
  apply emits_bind; [|intros _];
    apply (emits_event P tt), Hw, signal_pin_nth; auto; lia.
Qed.

Lemma emits_wait P line own fuel start flag :
  (∀ v, P (EvRead leftButtonPin v)) → (∀ v, P (EvRead rightButtonPin v)) →
  P (EvDelay 1) →
  emits P (wait_ line own fuel start flag).
Proof.
  intros Hl Hr Hd. unfold wait_. apply emits_while.
  - intros s. apply emits_bind; [apply emits_millis|]. intros now. apply emits_ret.
  - intros _. apply emits_bind; [by apply emits_readButtonStates|].
    intros s. apply emits_ret.
Qed.

Lemma emits_chase P A0 line own pins fuel :
  pins = leftSignalPins ∨ pins = rightSignalPins →
  (∀ v, P (EvRead leftButtonPin v)) → (∀ v, P (EvRead rightButtonPin v)) →
  P (EvDelay 1) → P (EvDelayMicroseconds 128) →
  (∀ v, P (EvWrite A0 v)) →
  (∀ pin, pin ∈ leftSignalPins ++ rightSignalPins → P (EvWrite pin LOW)) →
  (∀ pin, pin ∈ pins → P (EvWrite pin HIGH)) →
  emits P (chase A0 line own pins fuel).
Proof.
  intros Hpins Hl Hr Hd Hus HA0 Hlow Hhigh. unfold chase.
  apply emits_bind; [|intros _; apply emits_ret].
  apply emits_while; [intros s; apply emits_ret|]. intros flag.
  unfold chase_cycle. apply emits_bind; [by apply emits_bank|]. intros _.
  apply emits_for. intros j flag' Hj. unfold num_signal_lights in Hj.
  unfold chase_step.
  apply emits_bind; [apply (emits_event P tt), Hhigh, signal_pin_nth; auto; lia|].
  intros _. apply emits_bind; [by apply emits_buzzerClick|]. intros _.
  apply emits_bind; [apply emits_millis|]. intros start.
  by apply emits_wait.
Qed.

Lemma emits_hazards P A0 line fuel :
  (∀ v, P (EvRead leftButtonPin v)) → (∀ v, P (EvRead rightButtonPin v)) →
  P (EvDelay 1) → P (EvDelayMicroseconds 128) →
  (∀ v, P (EvWrite A0 v)) →
  (∀ pin v, pin ∈ leftSignalPins ++ rightSignalPins → P (EvWrite pin v)) →
  emits P (engageHazardLights A0 line fuel).
Proof.
  intros Hl Hr Hd Hus HA0 Hsig. rewrite engageHazardLights_cycles.
  apply emits_bind; [|intros _; apply emits_ret].
  apply emits_while; [intros s; apply emits_ret|]. intros flag.
  unfold hazard_cycle.
  apply emits_bind; [apply emits_bank; auto|]. intros _.
  apply emits_bind; [by apply emits_buzzerClick|]. intros _.
  apply emits_bind; [apply emits_millis|]. intros start.
  apply emits_bind; [by apply emits_wait|]. intros flag'.
  apply emits_bind; [apply emits_bank; auto|]. intros _.
  apply emits_bind; [by apply emits_buzzerClick|]. intros _.
  apply emits_bind; [apply emits_millis|]. intros start'.
  by apply emits_wait.
Qed.

Lemma emits_loop_sketch_event A0 line fuel :
  emits (sketch_event A0) (loop A0 line fuel).
Proof.
  assert (∀ v, sketch_event A0 (EvRead leftButtonPin v)) as Hl by (intros; by left).
  assert (∀ v, sketch_event A0 (EvRead rightButtonPin v)) as Hr by (intros; by right).
  assert (∀ v, sketch_event A0 (EvWrite A0 v)) as HA0 by (intros; by left).
  assert (∀ pin v, pin ∈ leftSignalPins ++ rightSignalPins →
                   sketch_event A0 (EvWrite pin v)) as Hsig by (intros; by right).
  unfold loop. apply emits_bind; [by apply emits_readButtonStates|].
  intros selection. repeat case_decide.
  - rewrite leftTurnSignal_chase.
    apply emits_chase; [by left|done|done|done|done|done|auto|].
    intros pin Hpin. apply Hsig, elem_of_app. by left.
  - rewrite rightTurnSignal_chase.
    apply emits_chase; [by right|done|done|done|done|done|auto|].
    intros pin Hpin. apply Hsig, elem_of_app. by right.
  - by apply emits_hazards.
  - apply emits_bank. auto.
Qed.

(** X1: whatever the buttons do and however long it runs, a pass of [loop]
    writes no pin but the buzzer and the eight signal pins, reads no pin but
    the two buttons, and pauses only for 1 ms or for 128 microseconds. *)
Theorem X1_loop_port_discipline :
  forall (A0 : N) (line : N -> N -> level) (fuel : nat) (w : World),
    exists tr,
      log (world_of (loop A0 line fuel w)) = log w ++ tr /\
      Forall (sketch_event A0) tr.
Proof.
  intros A0 line fuel w.
  destruct (emits_loop_sketch_event A0 line fuel w) as (tr & Hw & Htr).
  exists tr. by rewrite Hw, log_play.
Qed.

(** ** The configuration [setup] leaves *)

Lemma setup_unfold A0 d :
  setup A0 d =
    <[6:=OUTPUT]> (<[12:=OUTPUT]> (<[5:=OUTPUT]> (<[11:=OUTPUT]>
    (<[4:=OUTPUT]> (<[10:=OUTPUT]> (<[3:=OUTPUT]> (<[9:=OUTPUT]>
    (<[A0:=OUTPUT]> (<[8:=INPUT]> (<[13:=INPUT]> d)))))))))).
Proof. reflexivity. Qed.

Lemma setup_signal_output A0 d pin :
  pin ∈ leftSignalPins ++ rightSignalPins → setup A0 d !! pin = Some OUTPUT.
Proof.
  intros Hpin. rewrite setup_unfold.
  repeat (rewrite lookup_insert; case_decide; [done|]).
  exfalso. unfold leftSignalPins, rightSignalPins in Hpin. cbn [app] in Hpin.
  rewrite !elem_of_cons, elem_of_nil in Hpin. intuition congruence.
Qed.

Lemma setup_buzzer_output A0 d : setup A0 d !! A0 = Some OUTPUT.
Proof.
  rewrite setup_unfold.
  repeat (rewrite lookup_insert; case_decide; [done|]). done.
Qed.

Lemma setup_button A0 d pin :
  pin = leftButtonPin ∨ pin = rightButtonPin →
  setup A0 d !! pin = Some (if decide (A0 = pin) then OUTPUT else INPUT).
Proof.
  intros Hpin. rewrite setup_unfold.
  destruct Hpin as [-> | ->]; unfold leftButtonPin, rightButtonPin;
    do 8 (rewrite lookup_insert_ne by done);
    rewrite lookup_insert; case_decide; [done| |done|];
    by repeat (rewrite lookup_insert; case_decide; [done|]).
Qed.

Lemma setup_other A0 d pin :
  pin ≠ A0 → pin ≠ leftButtonPin → pin ≠ rightButtonPin →
  pin ∉ leftSignalPins ++ rightSignalPins →
  setup A0 d !! pin = d !! pin.
Proof.
  intros HA0 Hl Hr Hpin. rewrite setup_unfold.
  repeat (rewrite lookup_insert; case_decide;
          [exfalso; subst pin;
           first [done | apply Hpin, list_elem_of_In; vm_compute; tauto]|]).
  done.
Qed.

Lemma setup_idempotent A0 d : setup A0 (setup A0 d) = setup A0 d.
Proof.
  apply map_eq. intros pin.
  destruct (decide (pin ∈ leftSignalPins ++ rightSignalPins)) as [Hsig|Hsig].
  { by rewrite !setup_signal_output. }
  destruct (decide (pin = A0)) as [->|HA0].
  { by rewrite !setup_buzzer_output. }
  destruct (decide (pin = leftButtonPin ∨ pin = rightButtonPin)) as [Hb|Hb].
  { by rewrite !setup_button. }
  rewrite (setup_other A0 (setup A0 d)); [done|done| | |done]; intros ->; apply Hb; auto.
Qed.

(** X2: from any earlier configuration, [setup] leaves the eight signal
    pins and the buzzer pin outputs, each button pin an input unless the
    buzzer shares its pin (the buzzer is configured after the buttons, so
    it wins), and every other pin as it was; running it twice changes
    nothing more. *)
Theorem X2_setup_configuration :
  forall (A0 : N) (d : gmap N pin_mode),
    Forall (fun pin => setup A0 d !! pin = Some OUTPUT)
           (A0 :: leftSignalPins ++ rightSignalPins) /\
    setup A0 d !! leftButtonPin =
      Some (if decide (A0 = leftButtonPin) then OUTPUT else INPUT) /\
    setup A0 d !! rightButtonPin =
      Some (if decide (A0 = rightButtonPin) then OUTPUT else INPUT) /\
    (forall pin,
       ~ In pin (A0 :: leftButtonPin :: rightButtonPin ::
                 leftSignalPins ++ rightSignalPins) ->
       setup A0 d !! pin = d !! pin) /\
    setup A0 (setup A0 d) = setup A0 d.
Proof.
  intros A0 d. split; [|split; [|split; [|split]]].
  - apply Forall_cons. split; [apply setup_buzzer_output|].
    apply Forall_forall. intros pin Hpin. by apply setup_signal_output.
  - apply setup_button. by left.
  - apply setup_button. by right.
  - intros pin Hpin. apply setup_other.
    + intros ->. apply Hpin. by left.
    + intros ->. apply Hpin. right. by left.
    + intros ->. apply Hpin. right. right. by left.
    + intros Hin. apply Hpin. do 3 right. by apply list_elem_of_In.
  - apply setup_idempotent.
Qed.

(** Pin 2 is none of the sketch's pins on a board whose [A0] is pin 14:
    [setup] leaves it as it found it. *)
Lemma X2_setup_configuration_witness :
  ~ In 2 (A0_atmega328 :: leftButtonPin :: rightButtonPin ::
          leftSignalPins ++ rightSignalPins) /\
  setup A0_atmega328 {[2 := OUTPUT]} !! 2 = ({[2 := OUTPUT]} : gmap N pin_mode) !! 2.
Proof.
  assert (H : ~ In 2 (A0_atmega328 :: leftButtonPin :: rightButtonPin ::
                      leftSignalPins ++ rightSignalPins))
    by (vm_compute; intuition discriminate).
  split; [exact H|].
  exact (proj1 (proj2 (proj2 (proj2
           (X2_setup_configuration A0_atmega328 {[2 := OUTPUT]})))) 2 H).
Defined.

Lemma sketch_event_configured A0 d e :
  A0 ≠ leftButtonPin → A0 ≠ rightButtonPin →
  sketch_event A0 e → configured (setup A0 d) e.
Proof.
  intros Hl Hr. destruct e as [pin v|pin v|ms|us]; simpl; [| |done|done].
  - intros [-> | Hsig]; [apply setup_buzzer_output|by apply setup_signal_output].
  - intros Hpin. rewrite setup_button by done.
    by destruct Hpin as [-> | ->]; rewrite decide_False.
Qed.

(** X3: [setup] and [loop] agree on the pins: when the buzzer is on neither
    button pin, every pin a pass of [loop] writes is one [setup] has made an
    output and every pin it reads is one [setup] has made an input. *)
Theorem X3_loop_uses_pins_as_configured :
  forall (A0 : N) (line : N -> N -> level) (fuel : nat) (w : World)
         (d : gmap N pin_mode),
    A0 <> leftButtonPin -> A0 <> rightButtonPin ->
    exists tr,
      log (world_of (loop A0 line fuel w)) = log w ++ tr /\
      Forall (configured (setup A0 d)) tr.
Proof.
  intros A0 line fuel w d Hl Hr.
  destruct (emits_loop_sketch_event A0 line fuel w) as (tr & Hw & Htr).
  exists tr. split; [by rewrite Hw, log_play|].
  eapply Forall_impl; [exact Htr|]. intros e. by apply sketch_event_configured.
Qed.

Lemma X3_loop_uses_pins_as_configured_witness :
  A0_atmega328 <> leftButtonPin /\ A0_atmega328 <> rightButtonPin /\
  exists tr,
    log (world_of (loop A0_atmega328 (released_at 5000 left) 100 boot)) = log boot ++ tr /\
    Forall (configured (setup A0_atmega328 ∅)) tr.
Proof.
  assert (H1 : A0_atmega328 <> leftButtonPin) by discriminate.
  assert (H2 : A0_atmega328 <> rightButtonPin) by discriminate.
  split; [exact H1|]. split; [exact H2|].
  exact (X3_loop_uses_pins_as_configured A0_atmega328 (released_at 5000 left) 100 boot ∅ H1 H2).
Defined.

(** ** The wait loop, whatever the buttons do *)

Lemma wait_bounded_from line own n fuel k c0 w :
  (n < fuel)%nat →
  N.of_nat n + k = interval →
  clock w = c0 + 1000 * k →
  ∃ flag w' (j : nat),
    wait_ line own fuel ((c0 / 1000) mod ulong_max) true w = Done flag w' ∧
    (j ≤ n)%nat ∧
    clock w' = clock w + 1000 * N.of_nat j ∧
    (flag = true → j = n) ∧
    (flag = false → (0 < j)%nat) ∧
    port w' = port w.
Proof.
  revert fuel k w. induction n as [|n IH]; intros fuel k w Hfuel Hk Hclock;
    (destruct fuel as [|fuel]; [lia|]); rewrite wait_unfold, andb_true_r;
    rewrite Hclock, millis_after, ulong_sub_add
      by (unfold ulong_max, interval in *; change (2 ^ 32) with 4294967296; lia).
  - rewrite bool_decide_eq_false_2 by lia. exists true, w, 0%nat.
    repeat split; [lia|lia|done].
  - rewrite bool_decide_eq_true_2 by lia. cbv zeta. rewrite <- Hclock.
    set (l := line (clock w) leftButtonPin).
    set (r := line (clock w) rightButtonPin).
    assert (clock (play (sample_events l r) w) = clock w + 1000) as Hc
      by (rewrite clock_play; simpl; lia).
    assert (port (play (sample_events l r) w) = port w) as Hp
      by by rewrite port_play.
    destruct (decide (mode_of l r = own)) as [Hm|Hm].
    + destruct (IH fuel (k + 1) (play (sample_events l r) w))
        as (flag & w' & j & Hrun & Hj & Hclock' & Htrue & Hfalse & Hport); [lia|lia|lia|].
      exists flag, w', (S j). split; [done|].
      split; [lia|]. split; [lia|]. split; [intros ?; f_equal; auto|].
      split; [lia|congruence].
    + destruct fuel as [|fuel]; [lia|].
      rewrite wait_unfold, andb_false_r.
      exists false, (play (sample_events l r) w), 1%nat. split; [done|].
      split; [lia|]. split; [lia|]. split; [done|]. split; [lia|done].
Qed.

(** X4: a wait that starts with its flag set always ends, after at most
    [interval] samples of one millisecond each, also when [millis] wraps
    round past 2^32 during the wait: it takes all [interval] samples exactly
    when the flag is still set at the end, at least one when it is not, and
    it leaves the output latches alone. *)
Theorem X4_wait_bounded_by_interval :
  forall (line : N -> N -> level) (own : blinkerstate) (fuel : nat) (w : World),
    (N.to_nat interval < fuel)%nat ->
    exists (flag : bool) (w' : World) (j : N),
      wait_ line own fuel ((clock w / 1000) mod ulong_max) true w = Done flag w' /\
      j <= interval /\
      clock w' = clock w + 1000 * j /\
      (flag = true -> j = interval) /\
      (flag = false -> 0 < j) /\
      port w' = port w.
Proof.
  intros line own fuel w Hfuel.
  destruct (wait_bounded_from line own (N.to_nat interval) fuel 0 (clock w) w)
    as (flag & w' & j & Hrun & Hj & Hclock & Htrue & Hfalse & Hport); [done|lia|lia|].
  exists flag, w', (N.of_nat j). split; [done|].
  split; [lia|]. split; [done|]. split; [|split; [|done]].
  - intros Hflag. rewrite (Htrue Hflag). lia.
  - intros Hflag. specialize (Hfalse Hflag). lia.
Qed.

(** A wait begun 3 ms before [millis] wraps round, with the left button
    held: it still takes its 500 samples. *)
Lemma X4_wait_bounded_by_interval_witness :
  (N.to_nat interval < 501)%nat /\
  exists (flag : bool) (w' : World) (j : N),
    wait_ (steady left) left 501
          ((clock (mkWorld 4294967293000 ∅ []) / 1000) mod ulong_max) true
          (mkWorld 4294967293000 ∅ []) = Done flag w' /\
    j <= interval /\
    clock w' = clock (mkWorld 4294967293000 ∅ []) + 1000 * j /\
    (flag = true -> j = interval) /\
    (flag = false -> 0 < j) /\
    port w' = port (mkWorld 4294967293000 ∅ []).
Proof.
  assert (H : (N.to_nat interval < 501)%nat) by (vm_compute; lia).
  split; [exact H|].
  exact (X4_wait_bounded_by_interval (steady left) left 501
           (mkWorld 4294967293000 ∅ []) H).
Defined.

(** ** The lamps a turn signal leaves lit *)

Lemma replay_quiet tr p : Forall (fun e => is_write e = false) tr → replay tr p = p.
Proof.
  intros Htr. revert p. induction Htr as [|e tr He _ IH]; intros p; [done|].
  destruct e; try discriminate; apply IH.
Qed.

Lemma wait_keeps_port line own fuel start flag w :
  port (world_of (wait_ line own fuel start flag w)) = port w.
Proof.
  destruct (emits_wait (fun e => is_write e = false) line own fuel start flag) with (w := w)
    as (tr & -> & Htr); [done..|].
  by rewrite port_play, replay_quiet.
Qed.

Lemma lit_steps_cons A0 pins i n p :
  lit_steps A0 pins i (S n) p =
    lit_steps A0 pins (S i) n (<[A0:=LOW]> (<[nth i pins 0:=HIGH]> p)).
Proof. reflexivity. Qed.

Lemma replay_steps A0 own pins i n p :
  replay (concat (map (fun i => step_events A0 own (nth i pins 0)) (seq i n))) p =
    lit_steps A0 pins i n p.
Proof.
  revert i p. induction n as [|n IH]; intros i p; [done|].
  cbn [seq map concat]. by rewrite replay_app, replay_step, IH, lit_steps_cons.
Qed.

Lemma lit_steps_buzzer A0 pins i n p :
  (0 < n)%nat → pin_level (lit_steps A0 pins i n p) A0 = LOW.
Proof.
  intros Hn. destruct n as [|n]; [lia|]. unfold lit_steps.
  replace (S n) with (n + 1)%nat by lia.
  rewrite seq_app, fold_left_app. cbn [seq fold_left]. unfold pin_level.
  by rewrite lookup_insert_eq.
Qed.

Section ExitLamps.

Variable A0 : N.
Variable line : N → N → level.
Variable own : blinkerstate.
Variable pins : list N.

Lemma chase_step_port fuel i w :
  port (world_of (chase_step A0 line own pins fuel i true w)) =
    <[A0:=LOW]> (<[nth i pins 0:=HIGH]> (port w)).
Proof.
  unfold chase_step. rewrite bind_run. unfold digitalWrite. cbn beta iota.
  rewrite bind_run, buzzerClick_run. cbn beta iota.
  rewrite bind_run. unfold millis. cbn beta iota.
  by rewrite wait_keeps_port, port_play, replay_click.
Qed.

Lemma chase_for_port fuel n i w :
  ∃ m, (m ≤ n)%nat ∧ ((0 < n)%nat → (0 < m)%nat) ∧
       port (world_of (for_ n i (fun flag => flag) (chase_step A0 line own pins fuel) true w)) =
         lit_steps A0 pins i m (port w).
Proof.
  revert i w. induction n as [|n IH]; intros i w.
  - exists 0%nat. split; [lia|]. split; [lia|done].
  - cbn [for_]. rewrite bind_run.
    pose proof (chase_step_port fuel i w) as Hstep.
    destruct (chase_step A0 line own pins fuel i true w) as [[] w1|w1]; simpl in Hstep.
    + destruct (IH (S i) w1) as (m & Hm & _ & Hport).
      exists (S m). split; [lia|]. split; [lia|].
      by rewrite Hport, Hstep, lit_steps_cons.
    + rewrite for_false. exists 1%nat. split; [lia|]. split; [lia|].
      by rewrite lit_steps_cons.
    + exists 1%nat. split; [lia|]. split; [lia|]. by rewrite lit_steps_cons.
Qed.

Lemma chase_cycle_port fuel w :
  ∃ m, (0 < m ≤ 4)%nat ∧
       port (world_of (chase_cycle A0 line own pins fuel true w)) =
         lit_steps A0 pins 0 m (replay (bank_events LOW) (port w)).
Proof.
  unfold chase_cycle. rewrite bind_run, disableSignals_run. cbn beta iota.
  destruct (chase_for_port fuel num_signal_lights 0 (play (bank_events LOW) w))
    as (m & Hm & Hpos & Hport).
  exists m. unfold num_signal_lights in *. split; [lia|].
  by rewrite Hport, port_play.
Qed.

Lemma chase_while_port fuel n w :
  (0 < n)%nat →
  ∃ m p, (0 < m ≤ 4)%nat ∧
         port (world_of (while_ n (fun flag => mret flag)
                           (chase_cycle A0 line own pins fuel) true w)) =
           lit_steps A0 pins 0 m (replay (bank_events LOW) p).
Proof.
  revert w. induction n as [|n IH]; intros w Hn; [lia|].
  rewrite while_flag_true.
  destruct (chase_cycle_port fuel w) as (m & Hm & Hport).
  destruct (chase_cycle A0 line own pins fuel true w) as [[] w1|w1]; simpl in Hport.
  - destruct n as [|n]; [by exists m, (port w)|]. apply IH. lia.
  - exists m, (port w). split; [done|]. by destruct n.
  - by exists m, (port w).
Qed.

Lemma chase_exit_lamps other fuel w :
  pins = leftSignalPins ∧ other = rightSignalPins ∨
  pins = rightSignalPins ∧ other = leftSignalPins →
  A0 ∉ leftSignalPins ++ rightSignalPins →
  (0 < fuel)%nat →
  ∃ k, (k < 4)%nat ∧
       map (pin_level (port (world_of (chase A0 line own pins fuel w)))) pins =
         repeat HIGH (S k) ++ repeat LOW (3 - k) ∧
       map (pin_level (port (world_of (chase A0 line own pins fuel w)))) other =
         repeat LOW 4 ∧
       pin_level (port (world_of (chase A0 line own pins fuel w))) A0 = LOW.
Proof.
  intros Hpins HA0 Hfuel.
  destruct (chase_while_port fuel fuel w Hfuel) as (m & p & Hm & Hport).
  assert (port (world_of (chase A0 line own pins fuel w)) =
          lit_steps A0 pins 0 m (replay (bank_events LOW) p)) as ->.
  { unfold chase. rewrite bind_run.
    by destruct (while_ fuel _ _ true w). }
  destruct m as [|k]; [lia|]. exists k. split; [lia|].
  rewrite lit_steps_buzzer by lia.
  rewrite <- (replay_steps A0 own), <- replay_app.
  fold (chase_prefix A0 own pins (S k)).
  destruct (chase_prefix_lit A0 own pins other k p) as [H1 H2]; [lia|done|done|].
  by rewrite H1, H2.
Qed.

End ExitLamps.

(** X5: on a board whose buzzer is on none of the signal pins, whenever
    [leftTurnSignal] stops, returned or out of fuel after at least one
    round, the lit lamps of the left bank are its slots 0 to [k] for some
    [k]: slot 0 is always lit, no gap, and the whole right bank is dark and
    the buzzer low.  The same holds for [rightTurnSignal] with the banks
    exchanged. *)
Theorem X5_turn_signal_leaves_leading_slots_lit :
  forall (A0 : N) (line : N -> N -> level) (fuel : nat) (w : World),
    ~ In A0 (leftSignalPins ++ rightSignalPins) ->
    (0 < fuel)%nat ->
    (exists k, (k < 4)%nat /\
       map (pin_level (port (world_of (leftTurnSignal A0 line fuel w)))) leftSignalPins =
         repeat HIGH (S k) ++ repeat LOW (3 - k) /\
       map (pin_level (port (world_of (leftTurnSignal A0 line fuel w)))) rightSignalPins =
         repeat LOW 4 /\
       pin_level (port (world_of (leftTurnSignal A0 line fuel w))) A0 = LOW) /\
    (exists k, (k < 4)%nat /\
       map (pin_level (port (world_of (rightTurnSignal A0 line fuel w)))) rightSignalPins =
         repeat HIGH (S k) ++ repeat LOW (3 - k) /\
       map (pin_level (port (world_of (rightTurnSignal A0 line fuel w)))) leftSignalPins =
         repeat LOW 4 /\
       pin_level (port (world_of (rightTurnSignal A0 line fuel w))) A0 = LOW).
Proof.
  intros A0 line fuel w HA0 Hfuel.
  assert (A0 ∉ leftSignalPins ++ rightSignalPins) as HA0'
    by by rewrite list_elem_of_In.
  split.
  - rewrite leftTurnSignal_chase. apply chase_exit_lamps; auto.
  - rewrite rightTurnSignal_chase. apply chase_exit_lamps; auto.
Qed.

Lemma X5_turn_signal_leaves_leading_slots_lit_witness :
  ~ In A0_atmega328 (leftSignalPins ++ rightSignalPins) /\
  (0 < 1000)%nat /\
  exists k, (k < 4)%nat /\
    map (pin_level (port (world_of
           (leftTurnSignal A0_atmega328 (released_at 600000 left) 1000 boot))))
        leftSignalPins = repeat HIGH (S k) ++ repeat LOW (3 - k) /\
    map (pin_level (port (world_of
           (leftTurnSignal A0_atmega328 (released_at 600000 left) 1000 boot))))
        rightSignalPins = repeat LOW 4 /\
    pin_level (port (world_of
           (leftTurnSignal A0_atmega328 (released_at 600000 left) 1000 boot)))
        A0_atmega328 = LOW.
Proof.
  assert (H1 : ~ In A0_atmega328 (leftSignalPins ++ rightSignalPins))
    by (vm_compute; intuition discriminate).
  assert (H2 : (0 < 1000)%nat) by lia.
  split; [exact H1|]. split; [exact H2|].
  exact (proj1 (X5_turn_signal_leaves_leading_slots_lit A0_atmega328
                  (released_at 600000 left) 1000 boot H1 H2)).
Defined.

(** ** The hazard lights, whatever the buttons do *)

Lemma shaped_hazard_shaped A0 k tr : shaped hazards k tr → hazard_shaped A0 k tr.
Proof.
  intros (c & Hc & Htr). exists c. split; [done|]. destruct k; [|done].
  destruct Htr as (l & r & Hne & ->). exists l, r. split; [done|]. by left.
Qed.

Lemma hazard_shaped_prefix A0 k pre tr :
  calm hazards pre → hazard_shaped A0 k tr → hazard_shaped A0 k (pre ++ tr).
Proof.
  intros Hpre (c & Hc & Htr). exists (pre ++ c). split; [by apply calm_app|].
  destruct k; [|by subst].
  destruct Htr as (l & r & Hne & [-> | ->]); exists l, r; (split; [done|]);
    [left|right]; by rewrite app_assoc.
Qed.

Lemma hazard_run_prefix A0 pre r w :
  calm hazards pre → hazard_run A0 r (play pre w) → hazard_run A0 r w.
Proof.
  intros Hpre (tr & k & Hw & Hs & Hr). exists (pre ++ tr), k.
  split; [by rewrite play_app|]. split; [by apply hazard_shaped_prefix|done].
Qed.

Lemma bank_high_run (w : World) :
  for_ num_signal_lights 0 (fun _ : unit => true)
    (fun i _ =>
       digitalWrite (nth i leftSignalPins 0) HIGH;;
       digitalWrite (nth i rightSignalPins 0) HIGH) tt w =
    Done tt (play (bank_events HIGH) w).
Proof. reflexivity. Qed.

Section Hazards.

Variable A0 : N.
Variable line : N → N → level.

(** [hazard_cycle] after its first wait has come back with [flag]. *)
Lemma hazard_cycle_unfold fuel w :
  hazard_cycle A0 line fuel true w =
    match wait_ line hazards fuel
            ((clock (play (bank_events LOW ++ click_events A0) w) / 1000) mod ulong_max)
            true (play (bank_events LOW ++ click_events A0) w) with
    | Done flag w2 =>
        wait_ line hazards fuel
          ((clock (play (bank_events HIGH ++ click_events A0) w2) / 1000) mod ulong_max)
          flag (play (bank_events HIGH ++ click_events A0) w2)
    | OutOfFuel w2 => OutOfFuel w2
    end.
Proof.
  unfold hazard_cycle.
  rewrite bind_run, disableSignals_run. cbn beta iota.
  rewrite bind_run, buzzerClick_run. cbn beta iota.
  rewrite bind_run. unfold millis at 1. cbn beta iota.
  rewrite bind_run, <- play_app.
  destruct (wait_ line hazards fuel _ true _) as [flag w2|w2]; [|done].
  rewrite bind_run, bank_high_run. cbn beta iota.
  rewrite bind_run, buzzerClick_run. cbn beta iota.
  rewrite bind_run. unfold millis at 1. cbn beta iota.
  by rewrite <- play_app.
Qed.

Lemma calm_dark own : calm own (bank_events LOW ++ click_events A0).
Proof. apply calm_app; [apply calm_bank|apply calm_click]. Qed.

Lemma calm_lit own : calm own (bank_events HIGH ++ click_events A0).
Proof. apply calm_app; [apply calm_bank|apply calm_click]. Qed.

Lemma hazard_cycle_run fuel w :
  hazard_run A0 (hazard_cycle A0 line fuel true w) w.
Proof.
  rewrite hazard_cycle_unfold.
  apply (hazard_run_prefix A0 (bank_events LOW ++ click_events A0)); [apply calm_dark|].
  set (w1 := play (bank_events LOW ++ click_events A0) w).
  pose proof (wait_flag_run line hazards fuel ((clock w1 / 1000) mod ulong_max) w1)
    as (tr1 & k1 & Hw1 & Hs1 & Hr1).
  destruct (wait_ line hazards fuel _ true w1) as [[] w2|w2]; simpl in Hw1, Hr1; subst.
  - destruct Hs1 as (c1 & Hc1 & ->).
    apply (hazard_run_prefix A0 c1); [done|].
    apply (hazard_run_prefix A0 (bank_events HIGH ++ click_events A0)); [apply calm_lit|].
    set (w3 := play (bank_events HIGH ++ click_events A0) (play c1 w1)).
    destruct (wait_flag_run line hazards fuel ((clock w3 / 1000) mod ulong_max) w3)
      as (tr2 & k2 & Hw2 & Hs2 & Hr2).
    exists tr2, k2. split; [done|]. split; [by apply shaped_hazard_shaped|done].
  - destruct Hs1 as (c1 & Hc1 & l & r & Hne & ->).
    set (w3 := play (bank_events HIGH ++ click_events A0) (play (c1 ++ sample_events l r) w1)).
    destruct (wait_false line hazards fuel ((clock w3 / 1000) mod ulong_max) w3) as [Hw3 Hr3].
    exists (c1 ++ sample_events l r ++ bank_events HIGH ++ click_events A0), true.
    split; [|split].
    + rewrite Hw3. unfold w3. by rewrite <- !play_app, <- !app_assoc.
    + exists c1. split; [done|]. exists l, r. split; [done|]. by right.
    + destruct (returned _) as [[]|]; done.
  - exists tr1, k1. split; [done|]. split; [by apply shaped_hazard_shaped|done].
Qed.

Lemma hazard_while_run fuel n w :
  hazard_run A0 (while_ n (fun flag => mret flag) (hazard_cycle A0 line fuel) true w) w ∧
  returned (while_ n (fun flag => mret flag) (hazard_cycle A0 line fuel) true w) ≠ Some true.
Proof.
  revert w. induction n as [|n IH]; intros w.
  - split; [|done]. exists [], false. split; [done|]. split; [|done].
    exists []. split; [constructor|done].
  - rewrite while_flag_true.
    pose proof (hazard_cycle_run fuel w) as (tr & k & Hw & Hs & Hr).
    destruct (hazard_cycle A0 line fuel true w) as [[] w1|w1];
      simpl in Hw, Hr; subst.
    + destruct Hs as (c & Hc & ->). destruct (IH (play c w)) as [Hrun Hret].
      split; [|done]. by apply (hazard_run_prefix A0 c).
    + destruct n as [|n]; (split; [by exists tr, true|done]).
    + split; [by exists tr, k|done].
Qed.

Lemma hazards_shaped fuel w :
  ∃ tr cancelled,
    world_of (engageHazardLights A0 line fuel w) = play tr w ∧
    hazard_shaped A0 cancelled tr ∧
    (returned (engageHazardLights A0 line fuel w) = Some tt → cancelled = true).
Proof.
  rewrite engageHazardLights_cycles, bind_run.
  destruct (hazard_while_run fuel fuel w) as [(tr & k & Hw & Hs & Hr) Hret].
  destruct (while_ fuel _ _ true w) as [flag w1|w1]; simpl in *.
  - exists tr, k. split; [done|]. split; [done|]. intros _.
    destruct flag; [done|]. by subst.
  - exists tr, k. by split.
Qed.

(** The latches a returned cycle leaves: the lights-on pass and the click
    that follows it were the last writes. *)
Lemma hazard_cycle_port fuel w flag w' :
  hazard_cycle A0 line fuel true w = Done flag w' →
  ∃ p, port w' = <[A0:=LOW]> (replay (bank_events HIGH) p).
Proof.
  rewrite hazard_cycle_unfold.
  destruct (wait_ line hazards fuel _ true _) as [flag1 w2|w2]; [|done].
  intros Hrun. exists (port w2).
  pose proof (wait_keeps_port line hazards fuel
                ((clock (play (bank_events HIGH ++ click_events A0) w2) / 1000) mod ulong_max)
                flag1 (play (bank_events HIGH ++ click_events A0) w2)) as Hport.
  rewrite Hrun in Hport. cbn [world_of] in Hport.
  by rewrite Hport, port_play, replay_app, replay_click.
Qed.

Lemma hazard_while_port fuel n w w' :
  while_ n (fun flag => mret flag) (hazard_cycle A0 line fuel) true w = Done false w' →
  ∃ p, port w' = <[A0:=LOW]> (replay (bank_events HIGH) p).
Proof.
  revert w. induction n as [|n IH]; intros w; [done|].
  rewrite while_flag_true.
  destruct (hazard_cycle A0 line fuel true w) as [[] w1|w1] eqn:Hcycle; [by apply IH| |done].
  destruct n as [|n]; [done|]. intros [= <-]. by eapply hazard_cycle_port.
Qed.

End Hazards.

(** X6: on a board whose buzzer is on none of the signal pins, whenever
    [engageHazardLights] returns, all eight signal outputs are lit and the
    buzzer is low: in whichever phase the buttons were released, the
    hazard lights never hand back a dark port. *)
Theorem X6_hazards_return_with_all_lamps_lit :
  forall (A0 : N) (line : N -> N -> level) (fuel : nat) (w w' : World),
    ~ In A0 (leftSignalPins ++ rightSignalPins) ->
    engageHazardLights A0 line fuel w = Done tt w' ->
    Forall (fun pin => pin_level (port w') pin = HIGH)
           (leftSignalPins ++ rightSignalPins) /\
    pin_level (port w') A0 = LOW.
Proof.
  intros A0 line fuel w w' HA0 Hrun.
  rewrite engageHazardLights_cycles, bind_run in Hrun.
  destruct (while_ fuel _ _ true w) as [flag w1|w1] eqn:Hwhile; [|done].
  injection Hrun as <-.
  destruct (hazard_while_run A0 line fuel fuel w) as [_ Hret].
  rewrite Hwhile in Hret. destruct flag; [done|].
  destruct (hazard_while_port A0 line fuel fuel w w1 Hwhile) as [p Hport].
  rewrite Hport. unfold pin_level. split; [|by rewrite lookup_insert_eq].
  apply Forall_forall. intros pin Hpin.
  rewrite lookup_insert_ne, lookup_replay_bank, bool_decide_eq_true_2; [done|done|].
  intros ->. by apply HA0, list_elem_of_In.
Qed.

Lemma X6_hazards_return_with_all_lamps_lit_witness :
  ~ In A0_atmega328 (leftSignalPins ++ rightSignalPins) /\
  engageHazardLights A0_atmega328 (released_at 600000 hazards) 1000 boot =
    Done tt (world_of (engageHazardLights A0_atmega328 (released_at 600000 hazards) 1000 boot)) /\
  Forall (fun pin =>
            pin_level (port (world_of (engageHazardLights A0_atmega328
                                         (released_at 600000 hazards) 1000 boot))) pin = HIGH)
         (leftSignalPins ++ rightSignalPins) /\
  pin_level (port (world_of (engageHazardLights A0_atmega328
                               (released_at 600000 hazards) 1000 boot))) A0_atmega328 = LOW.
Proof.
  assert (H1 : ~ In A0_atmega328 (leftSignalPins ++ rightSignalPins))
    by (vm_compute; intuition discriminate).
  assert (H2 : engageHazardLights A0_atmega328 (released_at 600000 hazards) 1000 boot =
    Done tt (world_of (engageHazardLights A0_atmega328 (released_at 600000 hazards) 1000 boot)))
    by (vm_compute; reflexivity).
  split; [exact H1|]. split; [exact H2|].
  exact (X6_hazards_return_with_all_lamps_lit _ _ _ _ _ H1 H2).
Defined.

(** In a calm trace followed by one more sample and then events that are no
    reads, a sample of another mode can only be that one. *)
Lemma calm_cancel_tail own c l r q pre a b post :
  calm own c →
  Forall (fun e => match e with EvRead _ _ => False | _ => True end) q →
  c ++ sample_events l r ++ q =
    pre ++ EvRead leftButtonPin a :: EvRead rightButtonPin b :: post →
  mode_of a b ≠ own →
  post = EvDelay 1 :: q.
Proof.
  intros Hc Hq. revert pre. unfold sample_events in *.
  induction Hc as [|p v tr _ IH|us tr _ IH|l' r' tr Hm _ IH]; intros pre Heq Hne.
  - destruct pre as [|e1 [|e2 [|e3 pre]]]; simplify_eq/=; try done.
    apply Forall_app in Hq as [_ Hq]. by apply Forall_cons in Hq as [[] _].
  - destruct pre as [|e pre]; simplify_eq/=. eauto.
  - destruct pre as [|e pre]; simplify_eq/=. eauto.
  - destruct pre as [|e1 [|e2 [|e3 pre]]]; simplify_eq/=; eauto.
Qed.

Lemma hazard_shaped_cancel_tail A0 k tr pre a b post :
  hazard_shaped A0 k tr →
  tr = pre ++ EvRead leftButtonPin a :: EvRead rightButtonPin b :: post →
  mode_of a b ≠ hazards →
  post = [EvDelay 1] ∨ post = EvDelay 1 :: bank_events HIGH ++ click_events A0.
Proof.
  intros (c & Hc & Htr) Heq Hne. destruct k.
  - destruct Htr as (l & r & _ & [-> | ->]).
    + left. eapply (calm_cancel_last hazards c (sample_events l r)); eauto.
    + right. eapply (calm_cancel_tail hazards c l r); eauto.
      apply Forall_app. split; [by repeat constructor|].
      unfold click_events. cbn [repeat concat app]. by repeat constructor.
  - left. subst tr. eapply (calm_cancel_last hazards c []); eauto.
    by rewrite app_nil_r.
Qed.

(** X7: in any run of [engageHazardLights], once a sample of the buttons
    reads a mode other than hazards, what still happens is the debounce
    pause of that sample and then either nothing, or exactly one lights-on
    pass over the eight signal pins and one click: no further sample and no
    blanking. *)
Theorem X7_hazards_stop_within_one_lit_pass :
  forall (A0 : N) (line : N -> N -> level) (fuel : nat) (w : World)
         (pre post : list event) (a b : level),
    log (world_of (engageHazardLights A0 line fuel w)) =
      log w ++ pre ++ EvRead leftButtonPin a :: EvRead rightButtonPin b :: post ->
    mode_of a b <> hazards ->
    post = [EvDelay 1] \/
    post = EvDelay 1 :: bank_events HIGH ++ click_events A0.
Proof.
  intros A0 line fuel w pre post a b Hlog Hne.
  destruct (hazards_shaped A0 line fuel w) as (tr & k & Hw & Hs & _).
  rewrite Hw, log_play in Hlog. apply app_inv_head in Hlog.
  by eapply hazard_shaped_cancel_tail.
Qed.

(** Released in the lit phase: nothing follows the pause. *)
Lemma X7_hazards_stop_within_one_lit_pass_witness :
  log (world_of (engageHazardLights A0_atmega328 (released_at 505000 hazards) 1000 boot)) =
    log boot ++
    (bank_events LOW ++ click_events A0_atmega328 ++ wait_events hazards ++
     bank_events HIGH ++ click_events A0_atmega328 ++
     concat (repeat (sample_events HIGH HIGH) 1)) ++
    EvRead leftButtonPin LOW :: EvRead rightButtonPin LOW :: [EvDelay 1] /\
  mode_of LOW LOW <> hazards /\
  ([EvDelay 1] = [EvDelay 1] \/
   [EvDelay 1] = EvDelay 1 :: bank_events HIGH ++ click_events A0_atmega328).
Proof.
  assert (H1 : log (world_of (engageHazardLights A0_atmega328
                                (released_at 505000 hazards) 1000 boot)) =
    log boot ++
    (bank_events LOW ++ click_events A0_atmega328 ++ wait_events hazards ++
     bank_events HIGH ++ click_events A0_atmega328 ++
     concat (repeat (sample_events HIGH HIGH) 1)) ++
    EvRead leftButtonPin LOW :: EvRead rightButtonPin LOW :: [EvDelay 1])
    by (vm_compute; reflexivity).
  assert (H2 : mode_of LOW LOW <> hazards) by discriminate.
  split; [exact H1|]. split; [exact H2|].
  exact (X7_hazards_stop_within_one_lit_pass _ _ _ _ _ _ _ _ H1 H2).
Defined.

(** ** The hazard lights and [loop] return once the buttons are released *)

Section HazardRelease.

Variable A0 : N.
Variable line : N → N → level.
Variable t1 : N.
Hypothesis released :
  ∀ t, t1 ≤ t → mode_of (line t leftButtonPin) (line t rightButtonPin) ≠ hazards.

Lemma hazard_cycle_returns fuel w :
  (N.to_nat interval < fuel)%nat →
  ∃ flag w',
    hazard_cycle A0 line fuel true w = Done flag w' ∧
    clock w < clock w' ∧
    (t1 ≤ clock w → flag = false).
Proof.
  intros Hfuel. rewrite hazard_cycle_unfold.
  set (w1 := play (bank_events LOW ++ click_events A0) w).
  assert (clock w1 = clock w + 2048) as Hw1
    by (unfold w1; by rewrite clock_play, elapsed_app, elapsed_bank, elapsed_click).
  destruct (wait_returns line hazards t1 released (N.to_nat interval) fuel 0 (clock w1) w1)
    as (flag1 & w2 & -> & Hle1 & Hcancel1); [done|lia|lia|].
  set (w3 := play (bank_events HIGH ++ click_events A0) w2).
  assert (clock w3 = clock w2 + 2048) as Hw3
    by (unfold w3; by rewrite clock_play, elapsed_app, elapsed_bank, elapsed_click).
  destruct flag1.
  - destruct (wait_returns line hazards t1 released (N.to_nat interval) fuel 0 (clock w3) w3)
      as (flag2 & w4 & -> & Hle2 & _); [done|lia|lia|].
    exists flag2, w4. split; [done|]. split; [lia|].
    intros Ht1. assert (true = false); [|done].
    apply Hcancel1; [lia|]. unfold interval. lia.
  - destruct fuel as [|fuel]; [lia|]. rewrite wait_unfold, andb_false_r.
    exists false, w3. split; [done|]. split; [lia|done].
Qed.

Lemma hazard_while_returns fuel m n w :
  (N.to_nat interval < fuel)%nat →
  (N.to_nat (t1 - clock w) ≤ m)%nat →
  (m + 1 < n)%nat →
  ∃ w',
    while_ n (fun flag => mret flag) (hazard_cycle A0 line fuel) true w = Done false w'.
Proof.
  intros Hfuel. revert n w. induction m as [|m IH]; intros n w Hm Hn;
    (destruct n as [|n]; [lia|]); rewrite while_flag_true;
    destruct (hazard_cycle_returns fuel w Hfuel) as (flag & w1 & -> & Hlt & Hcancel);
    destruct flag.
  - assert (true = false) by (apply Hcancel; lia). done.
  - destruct n as [|n]; [lia|]. by exists w1.
  - apply IH; lia.
  - destruct n as [|n]; [lia|]. by exists w1.
Qed.

Lemma hazards_return w :
  ∃ fuel w', engageHazardLights A0 line fuel w = Done tt w'.
Proof.
  set (m := N.to_nat (t1 - clock w)).
  exists (S (N.to_nat interval) + (m + 2))%nat.
  destruct (hazard_while_returns (S (N.to_nat interval) + (m + 2)) m
              (S (N.to_nat interval) + (m + 2)) w) as [w' Hrun]; [lia|done|lia|].
  exists w'. by rewrite engageHazardLights_cycles, bind_run, Hrun.
Qed.

End HazardRelease.

(** X8: once the buttons have stopped reading hazards for good,
    [engageHazardLights] returns, given enough fuel. *)
Theorem X8_hazards_return_once_released :
  forall (A0 : N) (line : N -> N -> level) (w : World) (t1 : N),
    (forall t, t1 <= t ->
               mode_of (line t leftButtonPin) (line t rightButtonPin) <> hazards) ->
    exists fuel w', engageHazardLights A0 line fuel w = Done tt w'.
Proof. intros A0 line w t1 Hreleased. by eapply hazards_return. Qed.

Lemma released_at_off t1 m t :
  t1 ≤ t →
  released_at t1 m t leftButtonPin = LOW ∧ released_at t1 m t rightButtonPin = LOW.
Proof. intros Ht. unfold released_at. by rewrite !decide_False by lia. Qed.

Lemma X8_hazards_return_once_released_witness :
  (forall t, 5000 <= t ->
             mode_of (released_at 5000 hazards t leftButtonPin)
                     (released_at 5000 hazards t rightButtonPin) <> hazards) /\
  exists fuel w',
    engageHazardLights A0_atmega328 (released_at 5000 hazards) fuel boot = Done tt w'.
Proof.
  assert (H : forall t, 5000 <= t ->
             mode_of (released_at 5000 hazards t leftButtonPin)
                     (released_at 5000 hazards t rightButtonPin) <> hazards).
  { intros t Ht. destruct (released_at_off 5000 hazards t Ht) as [-> ->]. discriminate. }
  split; [exact H|].
  exact (X8_hazards_return_once_released A0_atmega328 (released_at 5000 hazards) boot 5000 H).
Defined.

(** X9: once both buttons are released for good, a pass of [loop] returns,
    given enough fuel, whichever animator it had entered. *)
Theorem X9_loop_returns_once_released :
  forall (A0 : N) (line : N -> N -> level) (w : World) (t1 : N),
    (forall t, t1 <= t ->
               line t leftButtonPin = LOW /\ line t rightButtonPin = LOW) ->
    exists fuel w', loop A0 line fuel w = Done tt w'.
Proof.
  intros A0 line w t1 Hreleased.
  assert (∀ own, own ≠ off →
            ∀ t, t1 ≤ t → mode_of (line t leftButtonPin) (line t rightButtonPin) ≠ own)
    as Hother.
  { intros own Hown t Ht. destruct (Hreleased t Ht) as [-> ->]. simpl. congruence. }
  set (w1 := play (sample_events (line (clock w) leftButtonPin)
                                 (line (clock w) rightButtonPin)) w).
  assert (∀ fuel, loop A0 line fuel w =
            match mode_of (line (clock w) leftButtonPin) (line (clock w) rightButtonPin) with
            | left => leftTurnSignal A0 line fuel w1
            | right => rightTurnSignal A0 line fuel w1
            | hazards => engageHazardLights A0 line fuel w1
            | off => disableSignals w1
            end) as Hloop.
  { intros fuel. unfold loop. rewrite bind_run, readButtonStates_run. fold w1.
    by destruct (mode_of _ _). }
  destruct (mode_of (line (clock w) leftButtonPin) (line (clock w) rightButtonPin)).
  - exists 0%nat. eexists. rewrite Hloop. apply disableSignals_run.
  - destruct (chase_returns A0 line left leftSignalPins t1 (Hother left ltac:(done)) w1)
      as (fuel & w' & Hrun).
    exists fuel, w'. by rewrite Hloop, leftTurnSignal_chase.
  - destruct (chase_returns A0 line right rightSignalPins t1 (Hother right ltac:(done)) w1)
      as (fuel & w' & Hrun).
    exists fuel, w'. by rewrite Hloop, rightTurnSignal_chase.
  - destruct (hazards_return A0 line t1 (Hother hazards ltac:(done)) w1) as (fuel & w' & Hrun).
    exists fuel, w'. by rewrite Hloop.
Qed.

Lemma X9_loop_returns_once_released_witness :
  (forall t, 5000 <= t ->
             released_at 5000 hazards t leftButtonPin = LOW /\
             released_at 5000 hazards t rightButtonPin = LOW) /\
  exists fuel w', loop A0_atmega328 (released_at 5000 hazards) fuel boot = Done tt w'.
Proof.
  assert (H : forall t, 5000 <= t ->
             released_at 5000 hazards t leftButtonPin = LOW /\
             released_at 5000 hazards t rightButtonPin = LOW)
    by (intros t Ht; by apply released_at_off).
  split; [exact H|].
  exact (X9_loop_returns_once_released A0_atmega328 (released_at 5000 hazards) boot 5000 H).
Defined.

(** ** The idle pass of [loop] and the frames of the leaf functions *)

Lemma replay_bank_other v p pin :
  ¬ In pin (leftSignalPins ++ rightSignalPins) →
  replay (bank_events v) p !! pin = p !! pin.
Proof.
  intros Hpin. rewrite lookup_replay_bank, bool_decide_eq_false_2; [done|].
  by rewrite list_elem_of_In.
Qed.

Lemma replay_bank_signal v p :
  Forall (fun pin => pin_level (replay (bank_events v) p) pin = v)
         (leftSignalPins ++ rightSignalPins).
Proof.
  apply Forall_forall. intros pin Hpin. unfold pin_level.
  by rewrite lookup_replay_bank, bool_decide_eq_true_2.
Qed.

(** X10: when both buttons read low at the sample, a pass of [loop] needs
    no fuel: it returns after the 1 ms debounce pause and one blanking pass,
    with the eight signal outputs low and every other latch, the buzzer's
    among them, as it was. *)
Theorem X10_loop_idle_pass_blanks :
  forall (A0 : N) (line : N -> N -> level) (fuel : nat) (w : World),
    line (clock w) leftButtonPin = LOW ->
    line (clock w) rightButtonPin = LOW ->
    exists w',
      loop A0 line fuel w = Done tt w' /\
      log w' = log w ++ sample_events LOW LOW ++ bank_events LOW /\
      clock w' = clock w + 1000 /\
      Forall (fun pin => pin_level (port w') pin = LOW)
             (leftSignalPins ++ rightSignalPins) /\
      (forall pin, ~ In pin (leftSignalPins ++ rightSignalPins) ->
                   port w' !! pin = port w !! pin).
Proof.
  intros A0 line fuel w Hl Hr.
  exists (play (sample_events LOW LOW ++ bank_events LOW) w).
  split; [|split; [|split; [|split]]].
  - unfold loop. rewrite bind_run, readButtonStates_run, Hl, Hr.
    cbn [mode_of]. rewrite !decide_False by done.
    by rewrite disableSignals_run, play_app.
  - by rewrite log_play.
  - rewrite clock_play, elapsed_app, elapsed_bank. simpl. lia.
  - rewrite port_play, replay_app. apply replay_bank_signal.
  - intros pin Hpin. rewrite port_play, replay_app. by rewrite replay_bank_other.
Qed.

Lemma X10_loop_idle_pass_blanks_witness :
  steady off (clock boot) leftButtonPin = LOW /\
  steady off (clock boot) rightButtonPin = LOW /\
  exists w',
    loop A0_atmega328 (steady off) 0 boot = Done tt w' /\
    log w' = log boot ++ sample_events LOW LOW ++ bank_events LOW /\
    clock w' = clock boot + 1000 /\
    Forall (fun pin => pin_level (port w') pin = LOW)
           (leftSignalPins ++ rightSignalPins) /\
    (forall pin, ~ In pin (leftSignalPins ++ rightSignalPins) ->
                 port w' !! pin = port boot !! pin).
Proof.
  assert (H1 : steady off (clock boot) leftButtonPin = LOW) by reflexivity.
  assert (H2 : steady off (clock boot) rightButtonPin = LOW) by reflexivity.
  split; [exact H1|]. split; [exact H2|].
  exact (X10_loop_idle_pass_blanks A0_atmega328 (steady off) 0 boot H1 H2).
Defined.

(** X11: [disableSignals] takes no time and touches no latch outside the
    two banks: the buzzer and every other pin stay as they were. *)
Theorem X11_disableSignals_frame :
  forall (w : World),
    exists w',
      disableSignals w = Done tt w' /\
      clock w' = clock w /\
      (forall pin, ~ In pin (leftSignalPins ++ rightSignalPins) ->
                   port w' !! pin = port w !! pin).
Proof.
  intros w. exists (play (bank_events LOW) w).
  split; [apply disableSignals_run|]. split.
  - rewrite clock_play, elapsed_bank. lia.
  - intros pin Hpin. rewrite port_play. by apply replay_bank_other.
Qed.

(** The buzzer latch of a board whose [A0] is pin 14 survives a blanking. *)
Lemma X11_disableSignals_frame_witness :
  ~ In A0_atmega328 (leftSignalPins ++ rightSignalPins) /\
  exists w',
    disableSignals (mkWorld 0 {[A0_atmega328 := HIGH]} []) = Done tt w' /\
    port w' !! A0_atmega328 = Some HIGH.
Proof.
  assert (H : ~ In A0_atmega328 (leftSignalPins ++ rightSignalPins))
    by (vm_compute; intuition discriminate).
  split; [exact H|].
  destruct (X11_disableSignals_frame (mkWorld 0 {[A0_atmega328 := HIGH]} []))
    as (w' & Hrun & _ & Hframe).
  exists w'. split; [exact Hrun|].
  rewrite (Hframe A0_atmega328 H). reflexivity.
Defined.

(** X12: a call of [buzzerClick] lasts exactly 2048 microseconds and
    changes no latch but the buzzer's. *)
Theorem X12_buzzerClick_duration_and_frame :
  forall (A0 : N) (w : World),
    exists w',
      buzzerClick A0 w = Done tt w' /\
      clock w' = clock w + 2048 /\
      (forall pin, pin <> A0 -> port w' !! pin = port w !! pin).
Proof.
  intros A0 w. exists (play (click_events A0) w).
  split; [apply buzzerClick_run|]. split.
  - by rewrite clock_play, elapsed_click.
  - intros pin Hpin. by rewrite port_play, replay_click, lookup_insert_ne.
Qed.

Lemma X12_buzzerClick_duration_and_frame_witness :
  9 <> A0_atmega328 /\
  exists w',
    buzzerClick A0_atmega328 (mkWorld 0 {[9 := HIGH]} []) = Done tt w' /\
    port w' !! 9 = Some HIGH.
Proof.
  assert (H : 9 <> A0_atmega328) by discriminate.
  split; [exact H|].
  destruct (X12_buzzerClick_duration_and_frame A0_atmega328 (mkWorld 0 {[9 := HIGH]} []))
    as (w' & Hrun & _ & Hframe).
  exists w'. split; [exact Hrun|].
  rewrite (Hframe 9 H). reflexivity.
Defined.

(** ** The cadence of the animators while their mode is held *)







(** ** A turn signal never lights the other side *)

Lemma emits_chase_lights_only A0 line own pins fuel :
  pins = leftSignalPins ∨ pins = rightSignalPins →
  emits (lights_only A0 pins) (chase A0 line own pins fuel).
Proof.
  intros Hpins. apply emits_chase; try done.
  - intros []; simpl; auto.
  - intros pin Hpin. simpl. auto.
Qed.

(** X14: whatever the buttons do, [leftTurnSignal] never drives a pin high
    other than the buzzer and the four pins of the left bank, and
    [rightTurnSignal] none other than the buzzer and the four of the right
    bank: what a turn signal writes to the other side is low. *)
Theorem X14_turn_signal_never_lights_other_bank :
  forall (A0 : N) (line : N -> N -> level) (fuel : nat) (w : World),
    (exists tr,
       log (world_of (leftTurnSignal A0 line fuel w)) = log w ++ tr /\
       Forall (lights_only A0 leftSignalPins) tr) /\
    (exists tr,
       log (world_of (rightTurnSignal A0 line fuel w)) = log w ++ tr /\
       Forall (lights_only A0 rightSignalPins) tr).
Proof.
  intros A0 line fuel w. split.
  - destruct (emits_chase_lights_only A0 line left leftSignalPins fuel (or_introl eq_refl) w)
      as (tr & Hw & Htr).
    exists tr. by rewrite leftTurnSignal_chase, Hw, log_play.
  - destruct (emits_chase_lights_only A0 line right rightSignalPins fuel (or_intror eq_refl) w)
      as (tr & Hw & Htr).
    exists tr. by rewrite rightTurnSignal_chase, Hw, log_play.
Qed.
